(** * Simple Budget Tracker (src/app.py)

    A shallow embedding of [BudgetTracker] and of the menu loop [main], and
    the properties of the specification proved or refuted on it.

    What the repository's code does is modelled as written.  What it calls
    from Python itself is either modelled from Python's reference
    implementation (dates, [str] methods, [sorted]) or, where the result
    depends on binary floating point or on the text of a JSON document,
    taken as an interface ([Float], [Json]). *)

From Stdlib Require Import ZArith Lia List Bool Ascii String DecimalString OrderedTypeEx Sorted.
From Stdlib Require Import Uint63 PrimFloat SpecFloat FloatOps.
From stdpp Require Import base option list gmap strings.

Local Open Scope string_scope.
Local Open Scope list_scope.
Local Open Scope Z_scope.

(** ** Python values *)

(** Python's [float], with the operations the program applies to it.
    [float_of_str] is [float(s)] on a string, [None] where Python raises
    [ValueError]; [format_2f] is [format(x, '.2f')]. *)
Class Float := {
  num : Type;
  zero : num;
  add : num → num → num;
  float_of_str : string → option num;
  format_2f : num → string;
}.

(** The exceptions the program can meet. [JSONDecodeError] is a subclass of
    [ValueError]. *)
Inductive exn := ValueError | JSONDecodeError | OverflowError | EOFError | OSError.

Definition is_ValueError (e : exn) : bool :=
  match e with
  | ValueError | JSONDecodeError => true
  | OverflowError | EOFError | OSError => false
  end.

Inductive result (A : Type) :=
  | Ok (a : A)
  | Raise (e : exn).
Arguments Ok {A} a.
Arguments Raise {A} e.

(** ** Strings

    A [string] is a Python [str]; one [ascii] stands for one character, so
    the model covers the characters below code point 256.  The fixed
    messages of the program that use other characters are written with
    their UTF-8 bytes. *)

(** [s * n] *)
Fixpoint str_mul (s : string) (n : nat) : string :=
  match n with
  | O => ""
  | S n' => s +:+ str_mul s n'
  end.

(** [s[:n]] *)
Fixpoint str_take (n : nat) (s : string) : string :=
  match n, s with
  | S n', String c s' => String c (str_take n' s')
  | _, _ => ""
  end.

(** [format(s, 'N')] for a string: left-justified in a field of width [n],
    never cut. *)
Definition ljust (n : nat) (s : string) : string :=
  s +:+ str_mul " " (n - String.length s).

(** [format(s, '>N')] *)
Definition rjust (n : nat) (s : string) : string :=
  str_mul " " (n - String.length s) +:+ s.

(** [c.isspace()], for the characters below 256. *)
Definition isspace (c : ascii) : bool :=
  let n := nat_of_ascii c in
  ((9 <=? n) && (n <=? 13) || (28 <=? n) && (n <=? 32) || (n =? 133) || (n =? 160))%nat.

Fixpoint lstrip (s : string) : string :=
  match s with
  | String c s' => if isspace c then lstrip s' else s
  | EmptyString => ""
  end.

Fixpoint rstrip (s : string) : string :=
  match s with
  | String c s' =>
      match rstrip s' with
      | EmptyString => if isspace c then "" else String c ""
      | r => String c r
      end
  | EmptyString => ""
  end.

(** [s.strip()] *)
Definition strip (s : string) : string := rstrip (lstrip s).

(** [a < b] on [str]: lexicographic on code points. *)
Definition str_lt (a b : string) : bool := String.ltb a b.

Definition newline : string := String (ascii_of_nat 10) "".

(** ** Dates (datetime.date)

    After Python's reference implementation of [datetime]: a date is a year,
    a month and a day; arithmetic goes through the proleptic Gregorian
    ordinal (0001-01-01 is day 1). *)

Record pydate := mkdate { year : Z; month : Z; day : Z }.

Definition MINYEAR : Z := 1.
Definition MAXYEAR : Z := 9999.
Definition MAXORDINAL : Z := 3652059.

Definition is_leap (y : Z) : bool :=
  (y mod 4 =? 0) && (negb (y mod 100 =? 0) || (y mod 400 =? 0)).

Definition DAYS_IN_MONTH (m : Z) : Z :=
  match m with
  | 1 => 31 | 2 => 28 | 3 => 31 | 4 => 30 | 5 => 31 | 6 => 30
  | 7 => 31 | 8 => 31 | 9 => 30 | 10 => 31 | 11 => 30 | 12 => 31
  | _ => -1
  end.

Definition DAYS_BEFORE_MONTH (m : Z) : Z :=
  match m with
  | 1 => 0 | 2 => 31 | 3 => 59 | 4 => 90 | 5 => 120 | 6 => 151
  | 7 => 181 | 8 => 212 | 9 => 243 | 10 => 273 | 11 => 304 | 12 => 334
  | _ => -1
  end.

Definition days_before_year (y : Z) : Z :=
  let y := y - 1 in
  y * 365 + y / 4 - y / 100 + y / 400.

Definition days_in_month (y m : Z) : Z :=
  if (m =? 2) && is_leap y then 29 else DAYS_IN_MONTH m.

Definition days_before_month (y m : Z) : Z :=
  DAYS_BEFORE_MONTH m + (if (2 <? m) && is_leap y then 1 else 0).

Definition ymd2ord (y m d : Z) : Z :=
  days_before_year y + days_before_month y m + d.

Definition DI400Y : Z := 146097.
Definition DI100Y : Z := 36524.
Definition DI4Y : Z := 1461.

Definition ord2ymd (n : Z) : pydate :=
  let n := n - 1 in
  let n400 := n / DI400Y in
  let n := n mod DI400Y in
  let y := n400 * 400 + 1 in
  let n100 := n / DI100Y in
  let n := n mod DI100Y in
  let n4 := n / DI4Y in
  let n := n mod DI4Y in
  let n1 := n / 365 in
  let n := n mod 365 in
  let y := y + n100 * 100 + n4 * 4 + n1 in
  if (n1 =? 4) || (n100 =? 4) then mkdate (y - 1) 12 31
  else
    let leapyear := (n1 =? 3) && (negb (n4 =? 24) || (n100 =? 3)) in
    let m := Z.shiftr (n + 50) 5 in
    let preceding := DAYS_BEFORE_MONTH m + (if (2 <? m) && leapyear then 1 else 0) in
    let '(m, preceding) :=
      if n <? preceding
      then (m - 1, preceding - (DAYS_IN_MONTH (m - 1) + (if (m - 1 =? 2) && leapyear then 1 else 0)))
      else (m, preceding) in
    mkdate y m (n - preceding + 1).

(** The check every [date] constructor makes. *)
Definition valid_date (d : pydate) : bool :=
  (MINYEAR <=? year d) && (year d <=? MAXYEAR) &&
  (1 <=? month d) && (month d <=? 12) &&
  (1 <=? day d) && (day d <=? days_in_month (year d) (month d)).

Definition toordinal (d : pydate) : Z := ymd2ord (year d) (month d) (day d).

(** [d.weekday()]: Monday is 0, Sunday is 6. *)
Definition weekday (d : pydate) : Z := (toordinal d + 6) mod 7.

(** [d + timedelta(days=k)] *)
Definition date_add (d : pydate) (k : Z) : result pydate :=
  let n := toordinal d + k in
  if (0 <? n) && (n <=? MAXORDINAL) then Ok (ord2ymd n) else Raise OverflowError.

(** [a <= b] on dates: the order of the triples (year, month, day). *)
Definition date_le (a b : pydate) : bool :=
  match year a ?= year b with
  | Lt => true
  | Gt => false
  | Eq =>
      match month a ?= month b with
      | Lt => true
      | Gt => false
      | Eq => day a <=? day b
      end
  end.

Definition digit (n : Z) : ascii := ascii_of_nat (48 + Z.to_nat n).

Definition is_digit (c : ascii) : bool :=
  let n := nat_of_ascii c in ((48 <=? n) && (n <=? 57))%nat.

Definition digit_val (c : ascii) : Z := Z.of_nat (nat_of_ascii c) - 48.

(** ["%04d" % n] and ["%02d" % n], for the values a date holds. *)
Definition zfill4 (n : Z) : string :=
  String (digit (n / 1000)) (String (digit (n / 100 mod 10))
    (String (digit (n / 10 mod 10)) (String (digit (n mod 10)) ""))).

Definition zfill2 (n : Z) : string :=
  String (digit (n / 10)) (String (digit (n mod 10)) "").

(** [str(d)], which is [d.isoformat()]. *)
Definition isoformat (d : pydate) : string :=
  zfill4 (year d) +:+ "-" +:+ zfill2 (month d) +:+ "-" +:+ zfill2 (day d).

(** [d.strftime('%Y-%m-%d')], with the year zero-filled to four digits as
    Python documents [%Y]. *)
Definition strftime_Ymd (d : pydate) : string :=
  zfill4 (year d) +:+ "-" +:+ zfill2 (month d) +:+ "-" +:+ zfill2 (day d).

(** [datetime.strptime(s, '%Y-%m-%d')].  The format compiles to the regular
    expression [(\d\d\d\d)-(1[0-2]|0[1-9]|[1-9])-(3[0-1]|[1-2]\d|0[1-9]|[1-9]| [1-9])],
    matched at the start of [s]; text left over after the match, and a
    triple that is no date, are [ValueError]s.  [re_m] and [re_d] list the
    alternatives of a group that match at the start of the text, in the
    order the matcher tries them, each with the text that follows. *)
Definition in_range (lo hi : Z) (c : ascii) : bool :=
  is_digit c && (lo <=? digit_val c) && (digit_val c <=? hi).

Definition re_Y (s : string) : option (Z * string) :=
  match s with
  | String a (String b (String c (String d r))) =>
      if is_digit a && is_digit b && is_digit c && is_digit d
      then Some (digit_val a * 1000 + digit_val b * 100 + digit_val c * 10 + digit_val d, r)
      else None
  | _ => None
  end.

Definition re_m (s : string) : list (Z * string) :=
  match s with
  | String a r1 =>
      match r1 with
      | String b r2 =>
          (if in_range 1 1 a && in_range 0 2 b
           then [(10 + digit_val b, r2)] else []) ++
          (if in_range 0 0 a && in_range 1 9 b then [(digit_val b, r2)] else [])
      | EmptyString => []
      end ++
      (if in_range 1 9 a then [(digit_val a, r1)] else [])
  | EmptyString => []
  end.

Definition re_d (s : string) : list (Z * string) :=
  match s with
  | String a r1 =>
      match r1 with
      | String b r2 =>
          (if in_range 3 3 a && in_range 0 1 b then [(30 + digit_val b, r2)] else []) ++
          (if in_range 1 2 a && is_digit b then [(digit_val a * 10 + digit_val b, r2)] else []) ++
          (if in_range 0 0 a && in_range 1 9 b then [(digit_val b, r2)] else [])
      | EmptyString => []
      end ++
      (if in_range 1 9 a then [(digit_val a, r1)] else []) ++
      match r1 with
      | String b r2 =>
          if (nat_of_ascii a =? 32)%nat && in_range 1 9 b then [(digit_val b, r2)] else []
      | EmptyString => []
      end
  | EmptyString => []
  end.

(** The first way to match the month, the hyphen and the day. *)
Fixpoint re_m_d (ms : list (Z * string)) : option (Z * Z * string) :=
  match ms with
  | (m, String c r) :: ms' =>
      if (nat_of_ascii c =? 45)%nat then
        match re_d r with
        | (d, r') :: _ => Some (m, d, r')
        | [] => re_m_d ms'
        end
      else re_m_d ms'
  | _ :: ms' => re_m_d ms'
  | [] => None
  end.

Definition strptime_Ymd (s : string) : result pydate :=
  match re_Y s with
  | Some (y, String c r) =>
      if (nat_of_ascii c =? 45)%nat then
        match re_m_d (re_m r) with
        | Some (m, d, EmptyString) =>
            if valid_date (mkdate y m d) then Ok (mkdate y m d) else Raise ValueError
        | _ => Raise ValueError
        end
      else Raise ValueError
  | _ => Raise ValueError
  end.


(** ** Expense records and the backing file *)

(** One element of [self.expenses]: a dict with the keys ['date'],
    ['amount'], ['category'] and, possibly, ['description'] (the one key the
    program reads with [.get]). *)
Record expense {F : Float} := mkexpense {
  date : string;
  amount : num;
  category : string;
  description : option string;
}.
Arguments mkexpense {F} date amount category description.

(** Python's [json] module on documents that are arrays of expense objects.
    [text] is what a file holds; [json_dump] is the text [json.dump(d, f,
    indent=2)] writes, [json_load] what [json.load(f)] returns, [None] where
    it raises [JSONDecodeError]. *)
Class Json {F : Float} := {
  text : Type;
  json_dump : list expense → text;
  json_load : text → option (list expense);
}.

(** What [json] promises: a document that was dumped loads as itself. *)
Class JsonRoundTrip {F : Float} (J : Json) : Prop :=
  json_load_dump : ∀ d : list expense, json_load (json_dump d) = Some d.

(** Arithmetic without rounding: [add] and [zero] form a commutative
    monoid. *)
Class ExactArithmetic (F : Float) : Prop := {
  add_comm : ∀ x y : num, add x y = add y x;
  add_assoc : ∀ x y z : num, add x (add y z) = add (add x y) z;
  add_zero_l : ∀ x : num, add zero x = x;
}.

(** ** The state of a run *)

Section Program.
Context {F : Float} {J : Json}.

(** The two attributes of the one [BudgetTracker] object, and the part of
    the world the program touches. *)
Record State := mkState {
  filename : string;              (* self.filename *)
  expenses : list expense;        (* self.expenses *)
  files : gmap string text;       (* the files on disk, by name *)
  clock : pydate;                 (* the date datetime.now() falls on *)
  stdin : list string;            (* the lines input() has still to read *)
  stdout : list string;           (* the text written so far, one entry per write *)
}.

(** A computation: it ends with a value or a raised exception, and in
    either case leaves a state behind. *)
Definition M (A : Type) : Type := State → result A * State.

Definition ret {A} (a : A) : M A := λ st, (Ok a, st).

Definition raise {A} (e : exn) : M A := λ st, (Raise e, st).

Definition bind {A B} (m : M A) (k : A → M B) : M B := λ st,
  match m st with
  | (Ok a, st') => k a st'
  | (Raise e, st') => (Raise e, st')
  end.

(** [try: body / except E: handler], where [catches] says which exceptions
    are instances of [E]. *)
Definition try_except {A} (body : M A) (catches : exn → bool) (handler : M A) : M A := λ st,
  match body st with
  | (Ok a, st') => (Ok a, st')
  | (Raise e, st') => if catches e then handler st' else (Raise e, st')
  end.

Definition lift {A} (r : result A) : M A := λ st, (r, st).

Definition get {A} (field : State → A) : M A := λ st, (Ok (field st), st).

End Program.

#[global] Instance M_ret {F : Float} {J : Json} : MRet M := @ret F J.
#[global] Instance M_bind {F : Float} {J : Json} : MBind M := λ A B k m, bind m k.

Section Methods.
Context {F : Float} {J : Json}.

(** A loop that updates local variables [acc] once per element. *)
Fixpoint for_each {A B} (l : list A) (body : B → A → M B) (acc : B) : M B :=
  match l with
  | [] => ret acc
  | x :: l' => acc' ← body acc x; for_each l' body acc'
  end.

(** *** Built-ins *)

(** [print(s)] *)
Definition print (s : string) : M unit := λ st,
  (Ok tt, mkState (filename st) (expenses st) (files st) (clock st) (stdin st) (stdout st ++ [s])).

(** [input(prompt)]: writes the prompt, then takes the next line;
    [EOFError] when there is none. *)
Definition input (prompt : string) : M string := λ st,
  match stdin st with
  | line :: rest =>
      (Ok line, mkState (filename st) (expenses st) (files st) (clock st) rest (stdout st ++ [prompt]))
  | [] =>
      (Raise EOFError, mkState (filename st) (expenses st) (files st) (clock st) [] (stdout st ++ [prompt]))
  end.

(** [float(s)] *)
Definition py_float (s : string) : M num :=
  match float_of_str s with
  | Some x => ret x
  | None => raise ValueError
  end.

(** [datetime.now()], as far as its date. *)
Definition datetime_now : M pydate := get clock.

(** [os.path.exists(name)] *)
Definition path_exists (name : string) : M bool := λ st,
  (Ok (bool_decide (is_Some (files st !! name))), st).

(** [with open(name, 'r') as f: return json.load(f)] *)
Definition open_json_load (name : string) : M (list expense) := λ st,
  match files st !! name with
  | Some t =>
      match json_load t with
      | Some d => (Ok d, st)
      | None => (Raise JSONDecodeError, st)
      end
  | None => (Raise OSError, st)
  end.

(** [with open(name, 'w') as f: json.dump(d, f, indent=2)] *)
Definition open_json_dump (name : string) (d : list expense) : M unit := λ st,
  (Ok tt, mkState (filename st) (expenses st) (<[name := json_dump d]> (files st))
            (clock st) (stdin st) (stdout st)).

(** [sorted(l, key=key, reverse=reverse)] for string keys: a stable sort.
    An element moves past the elements before which it must go, and past no
    other, so elements with equal keys keep their order, with [reverse]
    too. *)
Fixpoint insert_by {A} (before : A → A → bool) (x : A) (l : list A) : list A :=
  match l with
  | [] => [x]
  | y :: l' => if before y x then y :: insert_by before x l' else x :: y :: l'
  end.

Definition sorted {A} (key : A → string) (reverse : bool) (l : list A) : list A :=
  foldr (insert_by (λ y x, if reverse then str_lt (key x) (key y) else str_lt (key y) (key x))) [] l.

(** *** BudgetTracker *)

Definition load_expenses : M (list expense) :=
  name ← get filename;
  found ← path_exists name;
  if found : bool then open_json_load name else ret [].

Definition save_expenses : M unit :=
  name ← get filename;
  d ← get expenses;
  open_json_dump name d.

(** [self.expenses.append(e)] *)
Definition expenses_append (e : expense) : M unit := λ st,
  (Ok tt, mkState (filename st) (expenses st ++ [e]) (files st) (clock st) (stdin st) (stdout st)).

Definition add_expense (amount : num) (category description : string) : M unit :=
  now ← datetime_now;
  let expense :=
    {| date := strftime_Ymd now;
       amount := amount;   (* float(amount), on a float *)
       category := category;
       description := Some description |} in
  expenses_append expense;;
  save_expenses;;
  print ("✓ Added $" +:+ format_2f amount +:+ " to " +:+ category).

Definition get_week_range : M (pydate * pydate) :=
  today ← datetime_now;
  start ← lift (date_add today (- weekday today));
  end_ ← lift (date_add start 6);
  ret (start, end_).

(** [category_totals[k] += v] on a [defaultdict(float)]: the entries in
    insertion order. *)
Fixpoint dict_add (d : list (string * num)) (k : string) (v : num) : list (string * num) :=
  match d with
  | [] => [(k, add zero v)]
  | (k', v') :: d' =>
      if String.eqb k' k then (k', add v' v) :: d' else (k', v') :: dict_add d' k v
  end.

Definition category_line (item : string * num) : string :=
  ljust 20 (fst item) +:+ " $" +:+ rjust 8 (format_2f (snd item)).

Definition total_line (total : num) : string :=
  ljust 20 "TOTAL" +:+ " $" +:+ rjust 8 (format_2f total).

Definition weekly_summary : M unit :=
  '(start_date, end_date) ← get_week_range;
  print (newline +:+ str_mul "=" 50);;
  print ("WEEKLY SUMMARY (" +:+ isoformat start_date +:+ " to " +:+ isoformat end_date +:+ ")");;
  print (str_mul "=" 50 +:+ newline);;
  (* Filter expenses for this week *)
  all ← get expenses;
  weekly_expenses ←
    for_each all (λ weekly_expenses expense,
      expense_date ← lift (strptime_Ymd (date expense));
      if date_le start_date expense_date && date_le expense_date end_date
      then ret (weekly_expenses ++ [expense])
      else ret weekly_expenses) [];
  match weekly_expenses with
  | [] => print "No expenses recorded this week."
  | _ =>
      (* Calculate totals by category *)
      category_totals ←
        for_each weekly_expenses (λ category_totals expense,
          ret (dict_add category_totals (category expense) (amount expense))) [];
      (* Display by category; the keys of a dict differ, so the order of
         its items is the order of their keys *)
      total ←
        for_each (sorted fst false category_totals) (λ total item,
          print (category_line item);;
          ret (add total (snd item))) zero;
      print (str_mul "-" 50);;
      print (total_line total);;
      print (str_mul "=" 50 +:+ newline)
  end.

Definition expense_line (e : expense) : string :=
  let desc := str_take 28 (default "" (description e)) in
  ljust 12 (date e) +:+ " " +:+ ljust 15 (category e) +:+ " $" +:+
  rjust 8 (format_2f (amount e)) +:+ " " +:+ ljust 30 desc.

Definition list_all_expenses : M unit :=
  all ← get expenses;
  match all with
  | [] => print "No expenses recorded yet."
  | _ =>
      print (newline +:+ ljust 12 "Date" +:+ " " +:+ ljust 15 "Category" +:+ " " +:+
             ljust 10 "Amount" +:+ " " +:+ ljust 30 "Description");;
      print (str_mul "-" 70);;
      for_each (sorted date true all) (λ _ expense, print (expense_line expense)) tt;;
      print ""
  end.

(** [BudgetTracker(name)] *)
Definition set_filename (name : string) : M unit := λ st,
  (Ok tt, mkState name (expenses st) (files st) (clock st) (stdin st) (stdout st)).

Definition set_expenses (d : list expense) : M unit := λ st,
  (Ok tt, mkState (filename st) d (files st) (clock st) (stdin st) (stdout st)).

Definition init (name : string) : M unit :=
  set_filename name;;
  d ← load_expenses;
  set_expenses d.

(** *** main *)

Inductive flow := Continue | Break.

(** One turn of the [while True] loop. *)
Definition menu_turn : M flow :=
  print (newline +:+ "📊 BUDGET TRACKER");;
  print "1. Add expense";;
  print "2. Weekly summary";;
  print "3. List all expenses";;
  print "4. Exit";;
  line ← input (newline +:+ "Choose an option (1-4): ");
  let choice := strip line in
  if String.eqb choice "1" then
    try_except
      (line ← input "Amount: $";
       amount ← py_float line;
       line ← input "Category (e.g., Food, Transport, Entertainment): ";
       let category := strip line in
       line ← input "Description (optional): ";
       let description := strip line in
       add_expense amount category description)
      is_ValueError
      (print "❌ Invalid amount. Please enter a number.");;
    ret Continue
  else if String.eqb choice "2" then
    weekly_summary;; ret Continue
  else if String.eqb choice "3" then
    list_all_expenses;; ret Continue
  else if String.eqb choice "4" then
    print "Goodbye! 👋";; ret Break
  else
    print "❌ Invalid option. Please choose 1-4.";; ret Continue.

(** The loop, for at most [turns] turns: [None] when they are used up
    before the loop has ended. *)
Fixpoint menu_loop (turns : nat) : M (option unit) :=
  match turns with
  | O => ret None
  | S turns' =>
      f ← menu_turn;
      match f with
      | Break => ret (Some tt)
      | Continue => menu_loop turns'
      end
  end.

(** Every turn reads a line or ends the run, so one turn more than there
    are lines is enough. *)
Definition main : M (option unit) :=
  init "expenses.json";;
  lines ← get stdin;
  menu_loop (S (length lines)).

End Methods.

(** ** Two kinds of amounts, and a reading of files

    Instances of the interfaces, on which the model runs. *)

Definition decimal (n : Z) : string := NilZero.string_of_uint (N.to_uint (Z.to_N n)).

(** The text of a number as [float] reads it, after Python's grammar
    <<
      digitpart   ::= digit (["_"] digit)*
      number      ::= [digitpart] "." digitpart | digitpart ["."]
      exponent    ::= ("e" | "E") [sign] digitpart
      floatvalue  ::= [sign] (number [exponent] | "Infinity" | "inf" | "nan")
    >>
    in which case does not count and blanks around the text are dropped.
    The blanks [float] drops are not those of [str.strip]: it turns the
    blanks above code point 127 into spaces and then drops the blanks of
    C, so that the characters 28 to 31 are no blanks to it. *)
Definition isspace_float (c : ascii) : bool :=
  let n := nat_of_ascii c in
  ((9 <=? n) && (n <=? 13) || (n =? 32) || (n =? 133) || (n =? 160))%nat.

Fixpoint lstrip_float (s : string) : string :=
  match s with
  | String c s' => if isspace_float c then lstrip_float s' else s
  | EmptyString => ""
  end.

Fixpoint rstrip_float (s : string) : string :=
  match s with
  | String c s' =>
      match rstrip_float s' with
      | EmptyString => if isspace_float c then "" else String c ""
      | r => String c r
      end
  | EmptyString => ""
  end.

Definition lower (c : ascii) : ascii :=
  let n := nat_of_ascii c in
  if ((65 <=? n) && (n <=? 90))%nat then ascii_of_nat (n + 32) else c.

Fixpoint lower_str (s : string) : string :=
  match s with
  | String c s' => String (lower c) (lower_str s')
  | EmptyString => ""
  end.

(** The digits that follow a digit: their value joined to [acc], how many
    they are added to [n], and the text after them. *)
Fixpoint digits_tail (s : string) (acc n : Z) : Z * Z * string :=
  match s with
  | String c s' =>
      if is_digit c then digits_tail s' (acc * 10 + digit_val c) (n + 1)
      else if (nat_of_ascii c =? 95)%nat then
        match s' with
        | String c' s'' =>
            if is_digit c' then digits_tail s'' (acc * 10 + digit_val c') (n + 1)
            else (acc, n, s)
        | EmptyString => (acc, n, s)
        end
      else (acc, n, s)
  | EmptyString => (acc, n, s)
  end.

Definition digitpart (s : string) : option (Z * Z * string) :=
  match s with
  | String c s' => if is_digit c then Some (digits_tail s' (digit_val c) 1) else None
  | EmptyString => None
  end.

(** A number as its digits [m] and how many of them follow the point. *)
Definition read_number (s : string) : option (Z * Z * string) :=
  match digitpart s with
  | Some (i, _, r) =>
      match r with
      | String c r' =>
          if (nat_of_ascii c =? 46)%nat then
            match digitpart r' with
            | Some (f, k, r'') => Some (i * 10 ^ k + f, k, r'')
            | None => Some (i, 0, r')
            end
          else Some (i, 0, r)
      | EmptyString => Some (i, 0, r)
      end
  | None =>
      match s with
      | String c r' => if (nat_of_ascii c =? 46)%nat then digitpart r' else None
      | EmptyString => None
      end
  end.

Definition read_sign (s : string) : bool * string :=
  match s with
  | String c s' =>
      if (nat_of_ascii c =? 45)%nat then (true, s')
      else if (nat_of_ascii c =? 43)%nat then (false, s')
      else (false, s)
  | EmptyString => (false, s)
  end.

(** The exponent, which ends the text. *)
Definition read_exponent (s : string) : option Z :=
  match s with
  | EmptyString => Some 0
  | String c s' =>
      if (nat_of_ascii c =? 101)%nat then
        let '(neg, s'') := read_sign s' in
        match digitpart s'' with
        | Some (x, _, EmptyString) => Some (if neg then - x else x)
        | _ => None
        end
      else None
  end.

Inductive literal :=
  | Decimal (neg : bool) (m : Z) (exp10 : Z)   (* m * 10 ^ exp10, signed *)
  | Infinity (neg : bool)
  | NotANumber.

Definition read_float (s : string) : option literal :=
  let '(neg, s) := read_sign (lower_str (rstrip_float (lstrip_float s))) in
  if String.eqb s "inf" || String.eqb s "infinity" then Some (Infinity neg)
  else if String.eqb s "nan" then Some NotANumber
  else
    match read_number s with
    | Some (m, k, r) =>
        match read_exponent r with
        | Some x => Some (Decimal neg m (x - k))
        | None => None
        end
    | None => None
    end.

(** The binary64 number nearest to [n / d], ties to even, for [n >= 0] and
    [d > 0]. *)
Definition nearest_binary64 (n d : Z) : PrimFloat.float :=
  if n =? 0 then 0%float
  else
    let l := Z.log2 n - Z.log2 d in
    let t := if d * 2 ^ Z.max l 0 <=? n * 2 ^ Z.max (- l) 0 then l else l - 1 in
    let e := Z.max (t - 52) (-1074) in
    let n' := n * 2 ^ Z.max (- e) 0 in
    let d' := d * 2 ^ Z.max e 0 in
    let q := n' / d' in
    let r := n' mod d' in
    let q := if 2 * r <? d' then q
             else if d' <? 2 * r then q + 1
             else if Z.even q then q else q + 1 in
    Z.ldexp (of_uint63 (Uint63.of_Z q)) e.

(** IEEE 754 binary64, which is what Python's [float] is.  [float(s)]
    rounds the number the text denotes to the nearest binary64;
    [format(x, '.2f')] rounds the exact value of [x] to the nearest
    hundredth; ties go to even in both. *)
Definition binary64_of_str (s : string) : option PrimFloat.float :=
  match read_float s with
  | Some (Decimal neg m x) =>
      let v :=
        if m =? 0 then 0%float
        else if 400 <? x then infinity
        else if x + Z.log2 m / 3 + 1 <? -400 then 0%float
        else nearest_binary64 (m * 10 ^ Z.max x 0) (10 ^ Z.max (- x) 0) in
      Some (if neg then (- v)%float else v)
  | Some (Infinity neg) => Some (if neg then neg_infinity else infinity)
  | Some NotANumber => Some nan
  | None => None
  end.

Definition binary64_format_2f (x : PrimFloat.float) : string :=
  match Prim2SF x with
  | S754_nan => "nan"
  | S754_infinity s => if s then "-inf" else "inf"
  | S754_zero s => if s then "-0.00" else "0.00"
  | S754_finite s m e =>
      let n := Z.pos m * 100 * 2 ^ Z.max e 0 in
      let d := 2 ^ Z.max (- e) 0 in
      let q := n / d in
      let r := n mod d in
      let q := if 2 * r <? d then q
               else if d <? 2 * r then q + 1
               else if Z.even q then q else q + 1 in
      (if s then "-" else "") +:+ decimal (q / 100) +:+ "." +:+ zfill2 (q mod 100)
  end.

Definition binary64 : Float := {|
  num := PrimFloat.float;
  zero := 0%float;
  add := PrimFloat.add;
  float_of_str := binary64_of_str;
  format_2f := binary64_format_2f;
|}.

(** Whole amounts, which add up without rounding: the text of an amount is
    text that denotes a whole number. *)
Definition integral_of_str (s : string) : option Z :=
  match read_float s with
  | Some (Decimal neg m x) =>
      let d := 10 ^ Z.max (- x) 0 in
      if m mod d =? 0
      then Some ((if neg then -1 else 1) * (m / d) * 10 ^ Z.max x 0)
      else None
  | _ => None
  end.

Definition integral_format_2f (x : Z) : string :=
  (if x <? 0 then "-" else "") +:+ decimal (Z.abs x) +:+ ".00".

Definition integral : Float := {|
  num := Z;
  zero := 0;
  add := Z.add;
  float_of_str := integral_of_str;
  format_2f := integral_format_2f;
|}.

(** Files by what they say: [Some d] is the text of the document [d],
    [None] a text that is no JSON document. *)
Definition by_document (F : Float) : Json := {|
  text := option (list expense);
  json_dump := Some;
  json_load := id;
|}.

(** The state a run starts in: an object not yet built, the files, the
    day and the lines to come. *)
Definition world {F : Float} (J : Json) (fs : gmap string text) (today : pydate)
    (lines : list string) : State :=
  mkState "" [] fs today lines [].

(** A Wednesday, and stores to run the model on. *)
Definition a_wednesday : pydate := mkdate 2024 5 15.

Definition fresh_store : @State binary64 (by_document binary64) :=
  mkState "expenses.json" [] ∅ a_wednesday [] [].

Definition lunches : list (@expense integral) :=
  [mkexpense (F:=integral) "2024-05-13" 12 "Food" (Some "lunch");
   mkexpense (F:=integral) "2024-05-01" 100 "Rent" None;
   mkexpense (F:=integral) "2024-05-15" 30 "Transport" (Some "train");
   mkexpense (F:=integral) "2024-05-19" 7 "Food" (Some "")].

Definition lunch_store : @State integral (by_document integral) :=
  mkState "expenses.json" lunches ∅ a_wednesday [] [].

Definition two_lunches : list (@expense binary64) :=
  [mkexpense (F:=binary64) "2024-05-13" 12.5%float "Food" (Some "lunch");
   mkexpense (F:=binary64) "2024-05-15" 7%float "Food" None].

(** A tracker with two records that has no file yet; one whose file holds
    them; one whose file is no JSON. *)
Definition unsaved_store : @State binary64 (by_document binary64) :=
  mkState "expenses.json" two_lunches ∅ a_wednesday [] [].

Definition saved_store : @State binary64 (by_document binary64) :=
  mkState "expenses.json" [] {[ "expenses.json" := Some two_lunches ]} a_wednesday [] [].

Definition broken_store : @State binary64 (by_document binary64) :=
  mkState "expenses.json" [] {[ "expenses.json" := None ]} a_wednesday [] [].

(** Three records of two days, the last with a long description. *)
Definition three_records : list (@expense binary64) :=
  [mkexpense (F:=binary64) "2024-05-13" 12.5%float "Food" (Some "lunch");
   mkexpense (F:=binary64) "2024-05-15" 7%float "Food" None;
   mkexpense (F:=binary64) "2024-05-13" 30%float "Transport"
     (Some "a monthly pass for the train and the bus")].

Definition listed_store : @State binary64 (by_document binary64) :=
  mkState "expenses.json" three_records ∅ a_wednesday [] [].

(** A run in which the amount is mistyped. *)
Definition typing_store : @State binary64 (by_document binary64) :=
  mkState "expenses.json" [] ∅ a_wednesday ["1"; "abc"; "4"] [].

(** A run in which the amount entered is infinite. *)
Definition inf_store : @State binary64 (by_document binary64) :=
  mkState "expenses.json" [] ∅ a_wednesday ["1"; "inf"; "Food"; ""; "4"] [].

(** Three records of one week, of which the largest comes last in the
    store and first in the order of the categories. *)
Definition uneven : list (@expense binary64) :=
  [mkexpense (F:=binary64) "2024-05-13" 1%float "Toys" None;
   mkexpense (F:=binary64) "2024-05-14" 1%float "Snacks" None;
   mkexpense (F:=binary64) "2024-05-15" 1e16%float "Food" None].

Definition uneven_store : @State binary64 (by_document binary64) :=
  mkState "expenses.json" uneven ∅ a_wednesday [] [].

(** The three records with the one of Transport first. *)
Definition mixed_store : @State binary64 (by_document binary64) :=
  mkState "expenses.json"
    [mkexpense (F:=binary64) "2024-05-13" 30%float "Transport"
       (Some "a monthly pass for the train and the bus");
     mkexpense (F:=binary64) "2024-05-13" 12.5%float "Food" (Some "lunch");
     mkexpense (F:=binary64) "2024-05-15" 7%float "Food" None]
    ∅ a_wednesday [] [].

(** A tracker on one of the last five days of the calendar. *)
Definition late_store : @State binary64 (by_document binary64) :=
  mkState "expenses.json" [] ∅ (mkdate 9999 12 30) [] [].

(** A tracker whose file was edited by hand: the date of the second record
    is written the other way round. *)
Definition misdated : list (@expense binary64) :=
  [mkexpense (F:=binary64) "2024-05-13" 12.5%float "Food" (Some "lunch");
   mkexpense (F:=binary64) "13/05/2024" 7%float "Food" None].

Definition misdated_store : @State binary64 (by_document binary64) :=
  mkState "expenses.json" misdated ∅ a_wednesday ["2"; "4"] [].

(** A run in which the answers are typed with blanks around them, and one
    that ends in the middle of option 1. *)
Definition blank_store : @State binary64 (by_document binary64) :=
  mkState "expenses.json" [] ∅ a_wednesday [" 1 "; "12.5"; "  Food "; " lunch  "; " 4"] [].

Definition cut_store : @State binary64 (by_document binary64) :=
  mkState "expenses.json" [] ∅ a_wednesday ["1"; "12.5"] [].

(** ** The words of the properties *)

(** [a] may stand in front of [b] in a sorted list: [b] need not go before
    [a]. *)
Definition in_order {A} (before : A → A → bool) (a b : A) : Prop := before b a = false.

(** Keys do not grow along the list. *)
Definition descending {A} (key : A → string) (l : list A) : Prop :=
  StronglySorted (λ a b, str_lt (key a) (key b) = false) l.

(** Keys do not shrink along the list. *)
Definition ascending {A} (key : A → string) (l : list A) : Prop :=
  StronglySorted (λ a b, str_lt (key b) (key a) = false) l.

(** [a < b] on dates. *)
Definition date_lt (a b : pydate) : bool := negb (date_le b a).

(** The day a leap year has more. *)
Definition leap_day (y : Z) : Z := if is_leap y then 1 else 0.

(** [f] holds of [count] numbers from [i] on. *)
Fixpoint all_from (f : Z → bool) (count : nat) (i : Z) : bool :=
  match count with
  | O => true
  | S count' => if f i then all_from f count' (i + 1) else false
  end.

(** The month of the day [n] of a year, counted from 0, and the days of the
    year before that month: the end of [ord2ymd]. *)
Definition month_of_day (leapyear : bool) (n : Z) : Z * Z :=
  let m := Z.shiftr (n + 50) 5 in
  let preceding := DAYS_BEFORE_MONTH m + (if (2 <? m) && leapyear then 1 else 0) in
  if n <? preceding
  then (m - 1, preceding - (DAYS_IN_MONTH (m - 1) + (if (m - 1 =? 2) && leapyear then 1 else 0)))
  else (m, preceding).

(** That month is a month, starts where [days_before_month] says, and has
    the day in it. *)
Definition month_check (leapyear : bool) (n : Z) : bool :=
  let '(m, p) := month_of_day leapyear n in
  (1 <=? m) && (m <=? 12) &&
  (p =? DAYS_BEFORE_MONTH m + (if (2 <? m) && leapyear then 1 else 0)) &&
  (p <=? n) &&
  (n - p + 1 <=? (if (m =? 2) && leapyear then 29 else DAYS_IN_MONTH m)).

(** A month and a day, written with two digits each, read back as
    themselves. *)
Definition reads_back (m d : Z) : bool :=
  match re_m_d (re_m (zfill2 m +:+ "-" +:+ zfill2 d)) with
  | Some (m', d', EmptyString) => (m' =? m) && (d' =? d)
  | _ => false
  end.

(** What every turn of the menu starts with. *)
Definition menu : list string :=
  [newline +:+ "📊 BUDGET TRACKER"; "1. Add expense"; "2. Weekly summary";
   "3. List all expenses"; "4. Exit"; newline +:+ "Choose an option (1-4): "].

Definition heading (start_date end_date : pydate) : list string :=
  [newline +:+ str_mul "=" 50;
   "WEEKLY SUMMARY (" +:+ isoformat start_date +:+ " to " +:+ isoformat end_date +:+ ")";
   str_mul "=" 50 +:+ newline].

(** The Monday of the week of a day, as an ordinal. *)
Definition monday_of (d : pydate) : Z := toordinal d - weekday d.

(** The last day whose week ends within the calendar: Sunday 9999-12-26. *)
Definition last_sunday : pydate := mkdate 9999 12 26.

(** Keys grow along the list. *)
Definition strictly_ascending {A} (key : A → string) (l : list A) : Prop :=
  StronglySorted (λ a b, str_lt (key a) (key b) = true) l.

Section Vocabulary.
Context {F : Float} {J : Json}.

(** The state a computation leaves agrees with the one it found on the
    tracker's attributes, the files and the clock. *)
Definition same_store (st st' : State) : Prop :=
  filename st' = filename st ∧ expenses st' = expenses st ∧
  files st' = files st ∧ clock st' = clock st.

Definition read_only {A} (m : M A) : Prop := ∀ st, same_store st (m st).2.

(** A computation only adds to what is written. *)
Definition appends {A} (m : M A) : Prop :=
  ∀ st, ∃ more, stdout (m st).2 = stdout st ++ more.

(** A computation leaves no more lines to read than it found. *)
Definition reads_on {A} (m : M A) : Prop :=
  ∀ st, (length (stdin (m st).2) ≤ length (stdin st))%nat.

(** What [list_all_expenses] writes for a store. *)
Definition listing (all : list expense) : list string :=
  match all with
  | [] => ["No expenses recorded yet."]
  | _ =>
      [newline +:+ ljust 12 "Date" +:+ " " +:+ ljust 15 "Category" +:+ " " +:+
       ljust 10 "Amount" +:+ " " +:+ ljust 30 "Description";
       str_mul "-" 70] ++
      (expense_line <$> sorted date true all) ++ [""]
  end.

Definition wrote (st : State) (lines : list string) : State :=
  mkState (filename st) (expenses st) (files st) (clock st) (stdin st) (stdout st ++ lines).

(** The date of a record is text that reads as a date. *)
Definition parses (x : expense) : bool :=
  match strptime_Ymd (date x) with
  | Ok _ => true
  | Raise _ => false
  end.

(** The date of a record lies between two dates, both included. *)
Definition in_week (start_date end_date : pydate) (x : expense) : bool :=
  match strptime_Ymd (date x) with
  | Ok d => date_le start_date d && date_le d end_date
  | Raise _ => false
  end.

(** The records of a category. *)
Definition of_category (c : string) (l : list expense) : list expense :=
  List.filter (λ x, String.eqb (category x) c) l.

(** The sum of the amounts of records, added from the first on. *)
Definition sum_amounts (l : list expense) : num :=
  fold_left (λ t x, add t (amount x)) l zero.

Definition category_totals (l : list expense) (d : list (string * num)) : list (string * num) :=
  fold_left (λ d x, dict_add d (category x) (amount x)) l d.

(** [d.get(k)] *)
Fixpoint dict_get (d : list (string * num)) (k : string) : option num :=
  match d with
  | [] => None
  | (k', v) :: d' => if String.eqb k' k then Some v else dict_get d' k
  end.

(** What [weekly_summary] writes below the heading, for the records of the
    week. *)
Definition summary (week : list expense) : list string :=
  match week with
  | [] => ["No expenses recorded this week."]
  | _ =>
      let items := sorted fst false (category_totals week []) in
      (category_line <$> items) ++
      [str_mul "-" 50;
       total_line (fold_left (λ t i, add t (snd i)) items zero);
       str_mul "=" 50 +:+ newline]
  end.

(** The states of a tracker that started with no record and has since
    had expenses added, on days of the calendar. *)
Inductive reachable : State → Prop :=
  | reachable_empty st :
      expenses st = [] → reachable st
  | reachable_add st a c d :
      reachable st → valid_date (clock st) = true →
      reachable (add_expense a c d st).2
  | reachable_clock st today :
      reachable st →
      reachable (mkState (filename st) (expenses st) (files st) today (stdin st) (stdout st)).

(** The record [add_expense] builds. *)
Definition new_record (st : State) (a : num) (c d : string) : expense :=
  mkexpense (strftime_Ymd (clock st)) a c (Some d).

(** The state on another day, and with other lines to read. *)
Definition on_day (st : State) (today : pydate) : State :=
  mkState (filename st) (expenses st) (files st) today (stdin st) (stdout st).

Definition with_stdin (st : State) (lines : list string) : State :=
  mkState (filename st) (expenses st) (files st) (clock st) lines (stdout st).

(** Loading the file would give the sequence in memory. *)
Definition in_sync (st : State) : Prop := (load_expenses st).1 = Ok (expenses st).

(** Both dates read as dates, and the first record is not dated before the
    second. *)
Definition not_before (x y : expense) : Prop :=
  ∃ dx dy, strptime_Ymd (date x) = Ok dx ∧ strptime_Ymd (date y) = Ok dy ∧
           date_le dy dx = true.

End Vocabulary.

(** * Properties *)

(** ** Running a computation *)

Section Running.
Context {F : Float} {J : Json}.

Lemma run_bind {A B} (m : M A) (k : A → M B) st :
  (m ≫= k) st =
  match m st with
  | (Ok a, st') => k a st'
  | (Raise e, st') => (Raise e, st')
  end.
Proof. reflexivity. Qed.

Lemma run_ret {A} (a : A) st : ret a st = (Ok a, st).
Proof. reflexivity. Qed.


Lemma same_store_refl st : same_store st st.
Proof. repeat split. Qed.

Lemma same_store_trans st1 st2 st3 :
  same_store st1 st2 → same_store st2 st3 → same_store st1 st3.
Proof.
  intros (H1 & H2 & H3 & H4) (K1 & K2 & K3 & K4).
  repeat split; congruence.
Qed.

Lemma read_only_ret {A} (a : A) : read_only (ret a).
Proof. intros st. apply same_store_refl. Qed.

Lemma read_only_lift {A} (r : result A) : read_only (lift r).
Proof. intros st. apply same_store_refl. Qed.

Lemma read_only_get {A} (field : State → A) : read_only (get field).
Proof. intros st. apply same_store_refl. Qed.

Lemma read_only_print s : read_only (print s).
Proof. intros st. repeat split. Qed.

Lemma read_only_input s : read_only (input s).
Proof. intros st. unfold input. destruct (stdin st); repeat split. Qed.

Lemma read_only_bind {A B} (m : M A) (k : A → M B) :
  read_only m → (∀ a, read_only (k a)) → read_only (m ≫= k).
Proof.
  intros Hm Hk st. rewrite run_bind. specialize (Hm st).
  destruct (m st) as [[a|e] st']; simpl in *; [|done].
  eapply same_store_trans; [exact Hm | apply Hk].
Qed.

Lemma read_only_for_each {A B} (l : list A) (body : B → A → M B) :
  (∀ acc x, read_only (body acc x)) → ∀ acc, read_only (for_each l body acc).
Proof.
  intros Hbody. induction l as [|x l IH]; intros acc; simpl.
  - apply read_only_ret.
  - apply read_only_bind; auto.
Qed.

Lemma read_only_get_week_range : read_only get_week_range.
Proof.
  unfold get_week_range, datetime_now.
  apply read_only_bind; [apply read_only_get|intros today].
  apply read_only_bind; [apply read_only_lift|intros start].
  apply read_only_bind; [apply read_only_lift|intros end_].
  apply read_only_ret.
Qed.

Lemma read_only_weekly_summary : read_only weekly_summary.
Proof.
  unfold weekly_summary.
  apply read_only_bind; [apply read_only_get_week_range|intros [start_date end_date]].
  repeat (apply read_only_bind; [solve [auto using read_only_print, read_only_get]|intros ?]).
  apply read_only_bind.
  { apply read_only_for_each. intros acc x.
    apply read_only_bind; [apply read_only_lift|intros d].
    destruct (_ && _); apply read_only_ret. }
  intros [|e weekly]; [apply read_only_print|].
  apply read_only_bind.
  { apply read_only_for_each. intros acc x. apply read_only_ret. }
  intros totals. apply read_only_bind.
  { apply read_only_for_each. intros acc x.
    apply read_only_bind; [apply read_only_print|intros ?; apply read_only_ret]. }
  intros total.
  repeat (apply read_only_bind; [apply read_only_print|intros ?]).
  apply read_only_print.
Qed.

Lemma read_only_list_all_expenses : read_only list_all_expenses.
Proof.
  unfold list_all_expenses.
  apply read_only_bind; [apply read_only_get|intros [|e all]]; [apply read_only_print|].
  repeat (apply read_only_bind; [apply read_only_print|intros ?]).
  apply read_only_bind; [|intros ?; apply read_only_print].
  apply read_only_for_each. intros acc x. apply read_only_print.
Qed.

End Running.

(** ** Dates as text *)

Lemma is_digit_digit k : 0 ≤ k ≤ 9 → is_digit (digit k) = true.
Proof.
  intros H.
  assert (k = 0 ∨ k = 1 ∨ k = 2 ∨ k = 3 ∨ k = 4 ∨ k = 5 ∨ k = 6 ∨ k = 7 ∨ k = 8 ∨ k = 9)
    as Hk by lia.
  repeat (destruct Hk as [->|Hk]; [reflexivity|]). subst. reflexivity.
Qed.

Lemma digit_val_digit k : 0 ≤ k ≤ 9 → digit_val (digit k) = k.
Proof.
  intros H.
  assert (k = 0 ∨ k = 1 ∨ k = 2 ∨ k = 3 ∨ k = 4 ∨ k = 5 ∨ k = 6 ∨ k = 7 ∨ k = 8 ∨ k = 9)
    as Hk by lia.
  repeat (destruct Hk as [->|Hk]; [reflexivity|]). subst. reflexivity.
Qed.

Lemma re_Y_zfill4 y r : 0 ≤ y ≤ 9999 → re_Y (zfill4 y +:+ r) = Some (y, r).
Proof.
  intros H.
  assert (0 ≤ y / 1000 ≤ 9) by (Z.div_mod_to_equations; lia).
  assert (0 ≤ (y / 100) `mod` 10 ≤ 9) by (Z.div_mod_to_equations; lia).
  assert (0 ≤ (y / 10) `mod` 10 ≤ 9) by (Z.div_mod_to_equations; lia).
  assert (0 ≤ y `mod` 10 ≤ 9) by (Z.div_mod_to_equations; lia).
  cbv [zfill4 String.append re_Y].
  rewrite !is_digit_digit, !digit_val_digit by assumption.
  cbn [andb]. do 2 f_equal. Z.div_mod_to_equations; lia.
Qed.


Lemma reads_back_all :
  forallb (λ m, forallb (reads_back m) (seqZ 1 31)) (seqZ 1 12) = true.
Proof. vm_compute. reflexivity. Qed.

Lemma re_m_d_zfill2 m d :
  1 ≤ m ≤ 12 → 1 ≤ d ≤ 31 →
  re_m_d (re_m (zfill2 m +:+ "-" +:+ zfill2 d)) = Some (m, d, "").
Proof.
  intros Hm Hd.
  pose proof reads_back_all as H.
  rewrite forallb_forall in H.
  specialize (H m). rewrite forallb_forall in H.
  assert (reads_back m d = true) as Hr.
  { apply H; apply list_elem_of_In, elem_of_seqZ; lia. }
  unfold reads_back in Hr.
  destruct (re_m_d _) as [[[m' d'] [|c r]]|]; try discriminate.
  apply andb_true_iff in Hr as [->%Z.eqb_eq ->%Z.eqb_eq]. reflexivity.
Qed.

Lemma days_in_month_le y m : days_in_month y m ≤ 31.
Proof.
  unfold days_in_month. destruct (_ && _); [lia|].
  unfold DAYS_IN_MONTH.
  repeat match goal with |- context [match ?x with _ => _ end] => destruct x end; lia.
Qed.

(** The text [strftime] gives for a date is read by [strptime] as that
    date. *)
Lemma strptime_strftime d :
  valid_date d = true → strptime_Ymd (strftime_Ymd d) = Ok d.
Proof.
  intros Hv. pose proof Hv as Hv'. unfold valid_date, MINYEAR, MAXYEAR in Hv'.
  repeat (apply andb_true_iff in Hv' as [Hv' ?]).
  pose proof (days_in_month_le (year d) (month d)).
  unfold strptime_Ymd, strftime_Ymd.
  rewrite re_Y_zfill4 by lia.
  change ("-" +:+ ?s) with (String "-" s). cbn match. 
  change (nat_of_ascii "-" =? 45)%nat with true. cbn match.
  rewrite re_m_d_zfill2 by lia.
  destruct d as [y m dd]. simpl in *. rewrite Hv. reflexivity.
Qed.

(** ** The calendar *)

Lemma is_leap_spec y :
  is_leap y = true ↔ y `mod` 4 = 0 ∧ (y `mod` 100 ≠ 0 ∨ y `mod` 400 = 0).
Proof.
  unfold is_leap. rewrite andb_true_iff, orb_true_iff, negb_true_iff.
  rewrite !Z.eqb_eq, Z.eqb_neq. reflexivity.
Qed.

Lemma days_before_year_succ y :
  days_before_year (y + 1) = days_before_year y + 365 + leap_day y.
Proof.
  unfold leap_day. pose proof (is_leap_spec y) as H.
  unfold days_before_year. cbv zeta.
  replace (y + 1 - 1) with y by lia.
  destruct (is_leap y).
  - destruct (proj1 H eq_refl) as [H4 H100]. Z.div_mod_to_equations. lia.
  - assert (¬ (y `mod` 4 = 0 ∧ (y `mod` 100 ≠ 0 ∨ y `mod` 400 = 0))) as Hn
      by (intros Hc; apply H in Hc; discriminate).
    Z.div_mod_to_equations. lia.
Qed.

Lemma days_before_year_mono y y' : y ≤ y' → days_before_year y ≤ days_before_year y'.
Proof.
  intros H. unfold days_before_year. cbv zeta. Z.div_mod_to_equations. lia.
Qed.

Lemma days_before_year_next y y' :
  y < y' → days_before_year y + 365 + leap_day y ≤ days_before_year y'.
Proof.
  intros H. rewrite <- days_before_year_succ. apply days_before_year_mono. lia.
Qed.

Lemma date_le_spec a b :
  date_le a b = true ↔
  year a < year b ∨
  year a = year b ∧ (month a < month b ∨ month a = month b ∧ day a ≤ day b).
Proof.
  unfold date_le.
  destruct (Z.compare_spec (year a) (year b)); [|intuition lia|intuition (discriminate || lia)].
  destruct (Z.compare_spec (month a) (month b));
    [rewrite Z.leb_le; intuition lia|intuition lia|intuition (discriminate || lia)].
Qed.

Lemma date_lt_spec a b :
  date_lt a b = true ↔
  year a < year b ∨
  year a = year b ∧ (month a < month b ∨ month a = month b ∧ day a < day b).
Proof.
  unfold date_lt. rewrite negb_true_iff, <- not_true_iff_false, date_le_spec. lia.
Qed.

Lemma valid_date_spec d :
  valid_date d = true ↔
  1 ≤ year d ≤ 9999 ∧ 1 ≤ month d ≤ 12 ∧ 1 ≤ day d ≤ days_in_month (year d) (month d).
Proof.
  unfold valid_date, MINYEAR, MAXYEAR. rewrite !andb_true_iff, !Z.leb_le. tauto.
Qed.

(** The months of a year, laid end to end. *)
Lemma month_follows y m m' :
  1 ≤ m → m < m' → m' ≤ 12 →
  days_before_month y m + days_in_month y m ≤ days_before_month y m'.
Proof.
  intros H1 H2 H3. unfold days_before_month, days_in_month.
  assert (m = 1 ∨ m = 2 ∨ m = 3 ∨ m = 4 ∨ m = 5 ∨ m = 6 ∨ m = 7 ∨ m = 8 ∨ m = 9 ∨
          m = 10 ∨ m = 11) as Hm by lia.
  assert (m' = 2 ∨ m' = 3 ∨ m' = 4 ∨ m' = 5 ∨ m' = 6 ∨ m' = 7 ∨ m' = 8 ∨ m' = 9 ∨
          m' = 10 ∨ m' = 11 ∨ m' = 12) as Hm' by lia.
  destruct (is_leap y);
    repeat (destruct Hm as [->|Hm]); subst;
    repeat (destruct Hm' as [->|Hm']); subst; simpl; lia.
Qed.

Lemma year_end y m :
  1 ≤ m ≤ 12 → 0 ≤ days_before_month y m ∧
  days_before_month y m + days_in_month y m ≤ 365 + leap_day y.
Proof.
  intros H. unfold days_before_month, days_in_month, leap_day.
  assert (m = 1 ∨ m = 2 ∨ m = 3 ∨ m = 4 ∨ m = 5 ∨ m = 6 ∨ m = 7 ∨ m = 8 ∨ m = 9 ∨
          m = 10 ∨ m = 11 ∨ m = 12) as Hm by lia.
  destruct (is_leap y); repeat (destruct Hm as [->|Hm]); subst; simpl; lia.
Qed.

Lemma toordinal_lt a b :
  valid_date a = true → valid_date b = true →
  date_lt a b = true → toordinal a < toordinal b.
Proof.
  rewrite !valid_date_spec, date_lt_spec. unfold toordinal, ymd2ord.
  intros (Hya & Hma & Hda) (Hyb & Hmb & Hdb) [Hy|[Hy [Hm|[Hm Hd]]]].
  - pose proof (days_before_year_next _ _ Hy).
    pose proof (year_end (year a) (month a) Hma).
    pose proof (year_end (year b) (month b) Hmb). lia.
  - rewrite Hy in *.
    pose proof (month_follows (year b) (month a) (month b) ltac:(lia) Hm ltac:(lia)). lia.
  - rewrite Hy, Hm. lia.
Qed.

(** The order of dates is the order of their ordinals. *)
Lemma date_le_ordinal a b :
  valid_date a = true → valid_date b = true →
  date_le a b = (toordinal a <=? toordinal b).
Proof.
  intros Ha Hb. destruct (date_le a b) eqn:E.
  - symmetry. apply Z.leb_le.
    destruct (date_lt a b) eqn:E'.
    + pose proof (toordinal_lt a b Ha Hb E'). lia.
    + assert (a = b) as ->; [|lia].
      unfold date_lt in E'. apply negb_false_iff in E'.
      rewrite date_le_spec in E, E'. destruct a, b; simpl in *. f_equal; lia.
  - symmetry. apply Z.leb_gt. apply toordinal_lt; [assumption..|].
    unfold date_lt. rewrite E. reflexivity.
Qed.

Lemma toordinal_inj a b :
  valid_date a = true → valid_date b = true → toordinal a = toordinal b → a = b.
Proof.
  intros Ha Hb H.
  pose proof (date_le_ordinal a b Ha Hb) as H1.
  pose proof (date_le_ordinal b a Hb Ha) as H2.
  rewrite H, Z.leb_refl in H1. rewrite H, Z.leb_refl in H2.
  rewrite date_le_spec in H1, H2. destruct a, b; simpl in *. f_equal; lia.
Qed.

Lemma toordinal_range d : valid_date d = true → 1 ≤ toordinal d ≤ MAXORDINAL.
Proof.
  rewrite valid_date_spec. intros (Hy & Hm & Hd). unfold toordinal, ymd2ord.
  pose proof (year_end (year d) (month d) Hm).
  pose proof (days_before_year_mono 1 (year d) ltac:(lia)).
  pose proof (days_before_year_succ (year d)).
  pose proof (days_before_year_mono (year d + 1) 10000 ltac:(lia)).
  change (days_before_year 1) with 0 in *.
  change (days_before_year 10000) with MAXORDINAL in *. lia.
Qed.

Lemma all_from_spec f count lo i :
  all_from f count lo = true → lo ≤ i < lo + Z.of_nat count → f i = true.
Proof.
  revert lo. induction count as [|count IH]; intros lo H Hi; [lia|].
  simpl in H. destruct (f lo) eqn:E; [|discriminate].
  destruct (decide (i = lo)) as [->|Hne]; [exact E|].
  apply (IH (lo + 1)); [exact H|lia].
Qed.

Lemma months_checked :
  all_from (month_check false) 365 0 = true ∧ all_from (month_check true) 366 0 = true.
Proof. split; vm_compute; reflexivity. Qed.

Lemma month_of_day_spec (leapyear : bool) n :
  0 ≤ n < 365 + (if leapyear then 1 else 0) →
  let '(m, p) := month_of_day leapyear n in
  1 ≤ m ≤ 12 ∧
  p = DAYS_BEFORE_MONTH m + (if (2 <? m) && leapyear then 1 else 0) ∧
  p ≤ n ∧
  n - p + 1 ≤ (if (m =? 2) && leapyear then 29 else DAYS_IN_MONTH m).
Proof.
  intros H.
  assert (month_check leapyear n = true) as Hc.
  { destruct months_checked as [H0 H1].
    destruct leapyear; [apply (all_from_spec _ _ _ _ H1)|apply (all_from_spec _ _ _ _ H0)];
      lia. }
  unfold month_check in Hc. destruct (month_of_day leapyear n) as [m p].
  rewrite !andb_true_iff, !Z.leb_le, Z.eqb_eq in Hc. tauto.
Qed.

Lemma is_leap_of_parts a b c e :
  0 ≤ b ≤ 3 → 0 ≤ c ≤ 24 → 0 ≤ e ≤ 3 →
  is_leap (a * 400 + 1 + b * 100 + c * 4 + e) = (e =? 3) && (negb (c =? 24) || (b =? 3)).
Proof.
  intros Hb Hc He. apply eq_true_iff_eq.
  rewrite is_leap_spec, andb_true_iff, orb_true_iff, negb_true_iff, !Z.eqb_eq, Z.eqb_neq.
  Z.div_mod_to_equations. lia.
Qed.

Lemma ord2ymd_spec n :
  1 ≤ month (ord2ymd n) ≤ 12 ∧
  1 ≤ day (ord2ymd n) ≤ days_in_month (year (ord2ymd n)) (month (ord2ymd n)) ∧
  toordinal (ord2ymd n) = n.
Proof.
  unfold ord2ymd. cbv zeta.
  pose proof (Z.div_mod (n - 1) DI400Y ltac:(discriminate)) as E400.
  pose proof (Z.mod_pos_bound (n - 1) DI400Y ltac:(reflexivity)) as B400.
  set (q400 := (n - 1) / DI400Y) in *. set (r400 := (n - 1) mod DI400Y) in *.
  pose proof (Z.div_mod r400 DI100Y ltac:(discriminate)) as E100.
  pose proof (Z.mod_pos_bound r400 DI100Y ltac:(reflexivity)) as B100.
  set (q100 := r400 / DI100Y) in *. set (r100 := r400 mod DI100Y) in *.
  pose proof (Z.div_mod r100 DI4Y ltac:(discriminate)) as E4.
  pose proof (Z.mod_pos_bound r100 DI4Y ltac:(reflexivity)) as B4.
  set (q4 := r100 / DI4Y) in *. set (r4 := r100 mod DI4Y) in *.
  pose proof (Z.div_mod r4 365 ltac:(discriminate)) as E1.
  pose proof (Z.mod_pos_bound r4 365 ltac:(reflexivity)) as B1.
  set (q1 := r4 / 365) in *. set (r1 := r4 mod 365) in *.
  clearbody q400 r400 q100 r100 q4 r4 q1 r1.
  unfold DI400Y, DI100Y, DI4Y in *.
  assert (0 ≤ q100 ≤ 4 ∧ 0 ≤ q4 ≤ 24 ∧ 0 ≤ q1 ≤ 4) as (Hq100 & Hq4 & Hq1) by lia.
  destruct ((q1 =? 4) || (q100 =? 4)) eqn:Especial.
  - (* the last day of a leap year *)
    simpl. unfold toordinal, ymd2ord, days_in_month, days_before_month. simpl.
    apply orb_true_iff in Especial. rewrite !Z.eqb_eq in Especial.
    assert (is_leap (q400 * 400 + 1 + q100 * 100 + q4 * 4 + q1 - 1) = true) as ->.
    { apply is_leap_spec. Z.div_mod_to_equations. lia. }
    split; [lia|]. split; [lia|].
    unfold days_before_year. cbv zeta. Z.div_mod_to_equations. lia.
  - apply orb_false_iff in Especial as [N1 N100]. apply Z.eqb_neq in N1, N100.
    set (leapyear := (q1 =? 3) && (negb (q4 =? 24) || (q100 =? 3))).
    pose proof (is_leap_of_parts q400 q100 q4 q1 ltac:(lia) ltac:(lia) ltac:(lia)) as Hleap.
    fold leapyear in Hleap.
    pose proof (month_of_day_spec leapyear r1 ltac:(destruct leapyear; lia)) as Hmd.
    unfold month_of_day in Hmd. cbv zeta in Hmd.
    destruct (r1 <? _) eqn:Elt; simpl;
      destruct Hmd as (Hm & Hp & Hle & Hd);
      unfold toordinal, ymd2ord, days_in_month, days_before_month; simpl;
      rewrite Hleap;
      (split; [lia|]); (split; [lia|]);
      unfold days_before_year; cbv zeta; Z.div_mod_to_equations; lia.
Qed.

Lemma year_in_range d :
  1 ≤ month d ≤ 12 → 1 ≤ day d ≤ days_in_month (year d) (month d) →
  1 ≤ toordinal d ≤ MAXORDINAL → 1 ≤ year d ≤ 9999.
Proof.
  destruct d as [y m dd]. unfold toordinal, ymd2ord. simpl. intros Hm Hd Hord.
  pose proof (year_end y m Hm) as He.
  pose proof (days_before_year_succ y) as Hs.
  destruct (Z.le_gt_cases y 0) as [Hlo|Hlo].
  { pose proof (days_before_year_mono (y + 1) 1 ltac:(lia)) as H1.
    change (days_before_year 1) with 0 in H1. lia. }
  destruct (Z.le_gt_cases 10000 y) as [Hhi|Hhi]; [|lia].
  pose proof (days_before_year_mono 10000 y Hhi) as H1.
  change (days_before_year 10000) with MAXORDINAL in H1. lia.
Qed.

Lemma ord2ymd_valid n :
  1 ≤ n ≤ MAXORDINAL →
  valid_date (ord2ymd n) = true ∧ toordinal (ord2ymd n) = n.
Proof.
  intros Hn. destruct (ord2ymd_spec n) as (Hm & Hd & Hord).
  split; [|exact Hord].
  apply valid_date_spec. split; [|split; assumption].
  apply year_in_range; [assumption..|]. rewrite Hord. exact Hn.
Qed.

Lemma toordinal_valid d :
  valid_date d = true →
  1 ≤ toordinal d ≤ MAXORDINAL ∧ ord2ymd (toordinal d) = d.
Proof.
  intros Hv. pose proof (toordinal_range d Hv) as Hr. split; [exact Hr|].
  destruct (ord2ymd_valid (toordinal d) Hr) as [Hv' Ho].
  apply toordinal_inj; assumption.
Qed.

Lemma date_add_ok d k d' :
  valid_date d = true → date_add d k = Ok d' →
  valid_date d' = true ∧ toordinal d' = toordinal d + k.
Proof.
  intros Hv. unfold date_add.
  destruct (_ && _) eqn:E; [|discriminate]. intros [= <-].
  apply andb_true_iff in E as [E1 E2]. apply Z.ltb_lt in E1. apply Z.leb_le in E2.
  apply ord2ymd_valid. lia.
Qed.

(** The week of a day: it starts on a Monday, ends on the Sunday six days
    later, and the day is in it. *)
Lemma week_range_spec today start_date end_date :
  valid_date today = true →
  date_add today (- weekday today) = Ok start_date →
  date_add start_date 6 = Ok end_date →
  weekday start_date = 0 ∧ weekday end_date = 6 ∧
  toordinal end_date = toordinal start_date + 6 ∧
  date_le start_date today = true ∧ date_le today end_date = true.
Proof.
  intros Hv Hs He.
  destruct (date_add_ok _ _ _ Hv Hs) as [Hvs Hos].
  destruct (date_add_ok _ _ _ Hvs He) as [Hve Hoe].
  rewrite (date_le_ordinal _ _ Hvs Hv), (date_le_ordinal _ _ Hv Hve), !Z.leb_le.
  unfold weekday in *. rewrite Hoe, Hos.
  set (n := toordinal today) in *. clearbody n.
  Z.div_mod_to_equations. lia.
Qed.

(** ** The backing file *)

Section BackingFile.
Context {F : Float} {J : Json}.

Lemma load_expenses_run st :
  load_expenses st =
  match files st !! filename st with
  | Some t =>
      match json_load t with
      | Some d => (Ok d, st)
      | None => (Raise JSONDecodeError, st)
      end
  | None => (Ok [], st)
  end.
Proof.
  unfold load_expenses. rewrite run_bind. unfold get. cbv beta iota.
  rewrite run_bind. unfold path_exists, open_json_load. cbv beta iota.
  destruct (files st !! filename st) as [t|] eqn:E.
  - rewrite bool_decide_true by eauto. rewrite E. reflexivity.
  - rewrite bool_decide_false by (intros [? ?]; discriminate). reflexivity.
Qed.

Lemma save_expenses_run st :
  save_expenses st =
  (Ok tt, mkState (filename st) (expenses st)
            (<[filename st := json_dump (expenses st)]> (files st))
            (clock st) (stdin st) (stdout st)).
Proof. reflexivity. Qed.

Lemma add_expense_run a c d st :
  add_expense a c d st =
  let e := mkexpense (strftime_Ymd (clock st)) a c (Some d) in
  (Ok tt, mkState (filename st) (expenses st ++ [e])
            (<[filename st := json_dump (expenses st ++ [e])]> (files st))
            (clock st) (stdin st)
            (stdout st ++ ["✓ Added $" +:+ format_2f a +:+ " to " +:+ c])).
Proof. reflexivity. Qed.

Lemma init_run name st :
  init name st =
  match files st !! name with
  | Some t =>
      match json_load t with
      | Some d => (Ok tt, mkState name d (files st) (clock st) (stdin st) (stdout st))
      | None =>
          (Raise JSONDecodeError,
           mkState name (expenses st) (files st) (clock st) (stdin st) (stdout st))
      end
  | None => (Ok tt, mkState name [] (files st) (clock st) (stdin st) (stdout st))
  end.
Proof.
  unfold init. rewrite run_bind. cbn [set_filename]. rewrite run_bind, load_expenses_run.
  cbn [files filename].
  destruct (files st !! name) as [t|]; [destruct (json_load t)|]; reflexivity.
Qed.

(** C7: [load_expenses] returns the parsed contents of the backing file when
    the file exists, the empty sequence when there is none, and raises the
    decoder's error when the file is there and malformed; nothing handles
    that error: building the tracker raises it, and so does [main], before
    any menu is shown. *)
Theorem load_expenses_outcome st :
  (files st !! filename st = None → load_expenses st = (Ok [], st)) ∧
  (∀ t d, files st !! filename st = Some t → json_load t = Some d →
     load_expenses st = (Ok d, st)) ∧
  (∀ t, files st !! filename st = Some t → json_load t = None →
     load_expenses st = (Raise JSONDecodeError, st)) ∧
  (∀ name t, files st !! name = Some t → json_load t = None →
     (init name st).1 = Raise JSONDecodeError ∧
     stdout (init name st).2 = stdout st) ∧
  (∀ t, files st !! "expenses.json" = Some t → json_load t = None →
     (main st).1 = Raise JSONDecodeError ∧ stdout (main st).2 = stdout st).
Proof.
  assert (∀ name t, files st !! name = Some t → json_load t = None →
     (init name st).1 = Raise JSONDecodeError ∧
     stdout (init name st).2 = stdout st) as Hinit.
  { intros name t Hf Ht. unfold init.
    rewrite run_bind. cbn [set_filename]. rewrite run_bind, load_expenses_run.
    cbn [files filename]. rewrite Hf, Ht. split; reflexivity. }
  repeat split.
  - intros H. rewrite load_expenses_run, H. reflexivity.
  - intros t d H Ht. rewrite load_expenses_run, H, Ht. reflexivity.
  - intros t H Ht. rewrite load_expenses_run, H, Ht. reflexivity.
  - apply (Hinit name t); assumption.
  - apply (Hinit name t); assumption.
  - unfold main. rewrite run_bind.
    destruct (Hinit _ _ H H0) as [H1 H2].
    destruct (init "expenses.json" st) as [[[]|e] st']; simpl in *; congruence.
  - unfold main. rewrite run_bind.
    destruct (Hinit _ _ H H0) as [H1 H2].
    destruct (init "expenses.json" st) as [[[]|e] st']; simpl in *; congruence.
Qed.

Context {R : JsonRoundTrip J}.

(** C3: saving the store and loading it again gives the sequence that was
    saved, whatever the file held before.  What is loaded comes from the
    file: [load_expenses] gives the saved sequence in every state that has
    the files [save_expenses] left and the name of the file, whatever that
    state holds in memory, and a tracker built anew on those files holds
    the saved sequence. *)
Theorem save_then_load st :
  ∃ st', save_expenses st = (Ok tt, st') ∧
         expenses st' = expenses st ∧
         files st' = <[filename st := json_dump (expenses st)]> (files st) ∧
         (∀ st2, files st2 = files st' → filename st2 = filename st →
            load_expenses st2 = (Ok (expenses st), st2)) ∧
         (∀ st2, files st2 = files st' →
            (init (filename st) st2).1 = Ok tt ∧
            expenses (init (filename st) st2).2 = expenses st).
Proof.
  eexists. split; [apply save_expenses_run|]. split; [reflexivity|].
  split; [reflexivity|]. cbn [files]. split.
  - intros st2 Hfiles Hname. rewrite load_expenses_run, Hfiles, Hname.
    rewrite lookup_insert_eq, json_load_dump. reflexivity.
  - intros st2 Hfiles. rewrite init_run, Hfiles.
    rewrite lookup_insert_eq, json_load_dump. split; reflexivity.
Qed.

(** C2: on a store that holds no record, [add_expense] followed by
    [load_expenses] gives exactly one record: the amount, the category and
    the description are the ones given, and the date is the text
    YYYY-MM-DD of the day the clock shows, which reads back as that day.
    The record comes from the file: [load_expenses] gives it in every state
    that has the files [add_expense] left and the name of the file,
    whatever that state holds in memory, and a tracker built anew on those
    files holds it. *)
Theorem add_then_load st a c d :
  expenses st = [] → valid_date (clock st) = true →
  ∃ st' e,
    add_expense a c d st = (Ok tt, st') ∧
    (∀ st2, files st2 = files st' → filename st2 = filename st →
       load_expenses st2 = (Ok [e], st2)) ∧
    (∀ st2, files st2 = files st' →
       (init (filename st) st2).1 = Ok tt ∧
       expenses (init (filename st) st2).2 = [e]) ∧
    amount e = a ∧ category e = c ∧ description e = Some d ∧
    date e = zfill4 (year (clock st)) +:+ "-" +:+ zfill2 (month (clock st)) +:+ "-" +:+
             zfill2 (day (clock st)) ∧
    strptime_Ymd (date e) = Ok (clock st).
Proof.
  intros Hempty Hclock. do 2 eexists.
  split; [apply add_expense_run|]. cbn zeta. cbn [files].
  split.
  { intros st2 Hfiles Hname. rewrite load_expenses_run, Hfiles, Hname.
    rewrite lookup_insert_eq, json_load_dump, Hempty. reflexivity. }
  split.
  { intros st2 Hfiles. rewrite init_run, Hfiles.
    rewrite lookup_insert_eq, json_load_dump, Hempty. split; reflexivity. }
  cbn [amount category description date].
  repeat split. apply strptime_strftime, Hclock.
Qed.

End BackingFile.

(** ** Sorting *)

Section InsertBy.
Context {A : Type} (before : A → A → bool).

Hypothesis before_asym : ∀ a b, before a b = true → before b a = false.
Hypothesis in_order_trans :
  ∀ a b c, in_order before a b → in_order before b c → in_order before a c.

Lemma insert_by_perm x l : insert_by before x l ≡ₚ x :: l.
Proof.
  induction l as [|y l IH]; simpl; [done|].
  destruct (before y x); [|done].
  rewrite IH. apply Permutation_swap.
Qed.

Lemma insert_by_sorted x l :
  StronglySorted (in_order before) l → StronglySorted (in_order before) (insert_by before x l).
Proof.
  induction 1 as [|y l Hl IH Hy]; simpl.
  - repeat constructor.
  - destruct (before y x) eqn:E.
    + constructor; [exact IH|].
      rewrite insert_by_perm. constructor; [|exact Hy].
      apply before_asym, E.
    + constructor; [constructor; assumption|].
      constructor; [exact E|].
      eapply Forall_impl; [exact Hy|]. intros z Hz.
      eapply in_order_trans; [exact E|exact Hz].
Qed.

Lemma foldr_insert_by_perm l : foldr (insert_by before) [] l ≡ₚ l.
Proof.
  induction l as [|x l IH]; simpl; [done|].
  rewrite insert_by_perm, IH. done.
Qed.

Lemma foldr_insert_by_sorted l :
  StronglySorted (in_order before) (foldr (insert_by before) [] l).
Proof.
  induction l as [|x l IH]; simpl; [constructor|].
  apply insert_by_sorted, IH.
Qed.

(** Stability: an element is not moved past one that [P] holds of, when
    [P] holds of it and of nothing that goes before it. *)
Lemma insert_by_filter (P : A → Prop) `{∀ a, Decision (P a)} x l :
  (P x → ∀ y, before y x = true → ¬ P y) →
  filter P (insert_by before x l) = filter P (x :: l).
Proof.
  intros HP. induction l as [|y l IH]; simpl; [done|].
  destruct (before y x) eqn:E; [|done].
  rewrite !filter_cons in *. rewrite IH.
  destruct (decide (P x)) as [Hx|Hx]; [|done].
  destruct (decide (P y)) as [Hy|Hy]; [|done].
  destruct (HP Hx y E Hy).
Qed.

End InsertBy.

Lemma str_lt_irrefl a : str_lt a a = false.
Proof.
  unfold str_lt, String.ltb.
  pose proof (String.compare_antisym a a) as H.
  destruct (String.compare a a); simpl in H; congruence.
Qed.

Lemma str_lt_asym a b : str_lt a b = true → str_lt b a = false.
Proof.
  unfold str_lt, String.ltb. rewrite (String.compare_antisym a b).
  destruct (String.compare b a); simpl; congruence.
Qed.

Lemma str_lt_trans a b c : str_lt a b = true → str_lt b c = true → str_lt a c = true.
Proof.
  unfold str_lt, String.ltb. intros Hab Hbc.
  assert (String.compare a b = Lt) as Hab' by (destruct (String.compare a b); congruence).
  assert (String.compare b c = Lt) as Hbc' by (destruct (String.compare b c); congruence).
  apply String_as_OT.cmp_lt in Hab', Hbc'.
  pose proof (String_as_OT.lt_trans _ _ _ Hab' Hbc') as Hac.
  apply String_as_OT.cmp_lt in Hac. unfold String_as_OT.cmp in Hac.
  rewrite Hac. reflexivity.
Qed.

Lemma str_lt_total a b : str_lt a b = false → str_lt b a = false → a = b.
Proof.
  unfold str_lt, String.ltb. rewrite (String.compare_antisym a b).
  destruct (String.compare b a) eqn:E; simpl; try congruence.
  intros _ _. symmetry. apply (String.compare_eq_iff b a E).
Qed.

(** Not below, twice, is not below. *)
Lemma str_ge_trans a b c :
  str_lt a b = false → str_lt b c = false → str_lt a c = false.
Proof.
  intros Hab Hbc. destruct (str_lt a c) eqn:Hac; [|done].
  destruct (str_lt b a) eqn:Hba.
  - rewrite (str_lt_trans b a c) in Hbc; done.
  - rewrite (str_lt_total a b) in Hac by done. congruence.
Qed.

Section Sorted.
Context {A : Type} (key : A → string).


Lemma sorted_perm reverse l : sorted key reverse l ≡ₚ l.
Proof. apply foldr_insert_by_perm. Qed.

Lemma sorted_reverse_descending l : descending key (sorted key true l).
Proof.
  apply (foldr_insert_by_sorted (λ y x, str_lt (key x) (key y))).
  - intros a b. apply str_lt_asym.
  - intros a b c. unfold in_order. apply str_ge_trans.
Qed.

Lemma sorted_ascending l : ascending key (sorted key false l).
Proof.
  apply (foldr_insert_by_sorted (λ y x, str_lt (key y) (key x))).
  - intros a b. apply str_lt_asym.
  - intros a b c. unfold in_order. intros H1 H2. eapply str_ge_trans; eassumption.
Qed.

Lemma sorted_stable reverse k l :
  filter (λ a, key a = k) (sorted key reverse l) = filter (λ a, key a = k) l.
Proof.
  induction l as [|x l IH]; [done|].
  unfold sorted in *. simpl. rewrite insert_by_filter.
  - rewrite !filter_cons, IH. done.
  - intros Hx y Hy Hk. rewrite Hx, Hk in Hy.
    destruct reverse; rewrite str_lt_irrefl in Hy; discriminate.
Qed.

End Sorted.

(** ** Listing the expenses *)

Lemma str_take_length n s : (String.length (str_take n s) ≤ n)%nat.
Proof.
  revert s. induction n as [|n IH]; intros [|c s]; simpl; try lia.
  specialize (IH s). lia.
Qed.

Lemma length_str_take n s : String.length (str_take n s) = Nat.min n (String.length s).
Proof.
  revert s. induction n as [|n IH]; intros [|c s]; try reflexivity.
  change (String.length (str_take (S n) (String c s)))
    with (S (String.length (str_take n s))).
  rewrite IH. reflexivity.
Qed.

Lemma str_take_prefix n s : ∃ rest, s = str_take n s +:+ rest.
Proof.
  revert s. induction n as [|n IH]; intros s.
  - exists s. destruct s; reflexivity.
  - destruct s as [|c s]; [exists ""; reflexivity|].
    destruct (IH s) as [rest Hrest]. exists rest.
    simpl. cbv [String.append]. fold String.append. congruence.
Qed.

Section Listing.
Context {F : Float} {J : Json}.


Lemma wrote_nil st : wrote st [] = st.
Proof. destruct st. unfold wrote. simpl. rewrite app_nil_r. reflexivity. Qed.

Lemma wrote_wrote st l1 l2 : wrote (wrote st l1) l2 = wrote st (l1 ++ l2).
Proof. unfold wrote. simpl. rewrite app_assoc. reflexivity. Qed.

Lemma print_run s st : print s st = (Ok tt, wrote st [s]).
Proof. reflexivity. Qed.

Lemma for_each_print {A} (f : A → string) l st :
  for_each l (λ _ x, print (f x)) tt st = (Ok tt, wrote st (f <$> l)).
Proof.
  revert st. induction l as [|x l IH]; intros st; simpl.
  - rewrite wrote_nil. reflexivity.
  - rewrite run_bind, print_run, IH, wrote_wrote. reflexivity.
Qed.

Lemma list_all_expenses_run st :
  list_all_expenses st = (Ok tt, wrote st (listing (expenses st))).
Proof.
  unfold list_all_expenses. rewrite run_bind. unfold get. cbv beta iota.
  unfold listing. destruct (expenses st) as [|e all]; [apply print_run|].
  rewrite run_bind, print_run, run_bind, print_run, run_bind, for_each_print.
  rewrite print_run, !wrote_wrote. reflexivity.
Qed.


(** C10: [list_all_expenses] never fails, also on records that have no
    description, which it shows as it shows an empty one; and of every
    description it shows the first 28 characters, or all of it when it has
    fewer. *)
Theorem list_all_expenses_total st :
  list_all_expenses st = (Ok tt, wrote st (listing (expenses st))) ∧
  ∀ e, ∃ shown rest,
    expense_line e =
      ljust 12 (date e) +:+ " " +:+ ljust 15 (category e) +:+ " $" +:+
      rjust 8 (format_2f (amount e)) +:+ " " +:+ ljust 30 shown ∧
    default "" (description e) = shown +:+ rest ∧
    (String.length shown ≤ 28)%nat ∧
    (description e = None → shown = "") ∧
    String.length shown = Nat.min 28 (String.length (default "" (description e))).
Proof.
  split; [apply list_all_expenses_run|].
  intros e. destruct (str_take_prefix 28 (default "" (description e))) as [rest Hrest].
  exists (str_take 28 (default "" (description e))), rest.
  split; [reflexivity|]. split; [exact Hrest|]. split; [apply str_take_length|].
  split; [intros ->; reflexivity|apply length_str_take].
Qed.

(** C9: [weekly_summary] and [list_all_expenses] leave the sequence in
    memory and every file as they found them, whether they return or
    raise. *)
Theorem summary_and_listing_read_only st :
  (expenses (weekly_summary st).2 = expenses st ∧
   files (weekly_summary st).2 = files st) ∧
  (expenses (list_all_expenses st).2 = expenses st ∧
   files (list_all_expenses st).2 = files st).
Proof.
  destruct (read_only_weekly_summary st) as (_ & H1 & H2 & _).
  destruct (read_only_list_all_expenses st) as (_ & H3 & H4 & _).
  auto.
Qed.

End Listing.

(** ** The weekly summary *)

Section Summary.
Context {F : Float} {J : Json}.

Lemma strptime_Ymd_raises s e : strptime_Ymd s = Raise e → e = ValueError.
Proof.
  unfold strptime_Ymd.
  repeat match goal with
         | |- context [match ?x with _ => _ end] => destruct x
         end; congruence.
Qed.

Lemma week_loop_run s e l acc st :
  for_each l (λ weekly_expenses expense,
      expense_date ← lift (strptime_Ymd (date expense));
      if date_le s expense_date && date_le expense_date e
      then ret (weekly_expenses ++ [expense])
      else ret weekly_expenses) acc st =
  (if forallb parses l then Ok (acc ++ List.filter (in_week s e) l) else Raise ValueError, st).
Proof.
  revert acc. induction l as [|x l IH]; intros acc; simpl.
  - rewrite app_nil_r. reflexivity.
  - rewrite run_bind, run_bind. unfold lift, parses, in_week.
    destruct (strptime_Ymd (date x)) as [d|e0] eqn:E.
    + destruct (date_le s d && date_le d e); cbn [andb]; cbv beta iota.
      * rewrite run_ret. cbv beta iota.
        rewrite IH. unfold parses. rewrite <- app_assoc. reflexivity.
      * rewrite run_ret. cbv beta iota.
        rewrite IH. reflexivity.
    + apply strptime_Ymd_raises in E as ->. reflexivity.
Qed.

Lemma totals_loop_run l d st :
  for_each l (λ category_totals expense,
      ret (dict_add category_totals (category expense) (amount expense))) d st =
  (Ok (category_totals l d), st).
Proof.
  revert d. induction l as [|x l IH]; intros d; simpl; [reflexivity|].
  rewrite run_bind, run_ret. cbv beta iota. apply IH.
Qed.

Lemma display_loop_run items total st :
  for_each items (λ total item,
      print (category_line item);; ret (add total (snd item))) total st =
  (Ok (fold_left (λ t i, add t (snd i)) items total), wrote st (category_line <$> items)).
Proof.
  revert total st. induction items as [|i items IH]; intros total st; simpl.
  - rewrite wrote_nil. reflexivity.
  - rewrite run_bind, run_bind, print_run. cbv beta iota.
    rewrite run_ret. cbv beta iota.
    rewrite IH, wrote_wrote. reflexivity.
Qed.

Lemma get_week_range_run st :
  get_week_range st =
  match date_add (clock st) (- weekday (clock st)) with
  | Raise e => (Raise e, st)
  | Ok start_date =>
      match date_add start_date 6 with
      | Raise e => (Raise e, st)
      | Ok end_date => (Ok (start_date, end_date), st)
      end
  end.
Proof.
  unfold get_week_range, datetime_now.
  rewrite run_bind. unfold get. cbv beta iota.
  rewrite run_bind. unfold lift at 1.
  destruct (date_add (clock st) _) as [s|e0]; [|reflexivity]. cbv beta iota.
  rewrite run_bind. unfold lift at 1.
  destruct (date_add s 6) as [e|e0]; reflexivity.
Qed.

(** The whole of [weekly_summary], case by case. *)
Lemma weekly_summary_run st :
  weekly_summary st =
  match date_add (clock st) (- weekday (clock st)) with
  | Raise e => (Raise e, st)
  | Ok start_date =>
      match date_add start_date 6 with
      | Raise e => (Raise e, st)
      | Ok end_date =>
          if forallb parses (expenses st)
          then (Ok tt, wrote st (heading start_date end_date ++
                                 summary (List.filter (in_week start_date end_date) (expenses st))))
          else (Raise ValueError, wrote st (heading start_date end_date))
      end
  end.
Proof.
  unfold weekly_summary.
  rewrite run_bind, get_week_range_run.
  destruct (date_add (clock st) _) as [s|e0]; [|reflexivity].
  destruct (date_add s 6) as [e|e0]; [|reflexivity]. cbv beta iota.
  rewrite run_bind, print_run, run_bind, print_run, run_bind, print_run.
  rewrite run_bind. unfold get at 1. cbv beta iota.
  rewrite run_bind, week_loop_run. rewrite !wrote_wrote.
  cbn [expenses wrote app].
  destruct (forallb parses (expenses st)); [|reflexivity].
  unfold summary.
  destruct (List.filter (in_week s e) (expenses st)) as [|x week].
  - rewrite print_run, wrote_wrote. reflexivity.
  - rewrite run_bind, totals_loop_run, run_bind, display_loop_run.
    rewrite run_bind, print_run, run_bind, print_run, print_run, !wrote_wrote.
    reflexivity.
Qed.

(** *** The totals by category *)

Lemma dict_get_add d k v k' :
  dict_get (dict_add d k v) k' =
  if String.eqb k k' then Some (add (default zero (dict_get d k)) v) else dict_get d k'.
Proof.
  induction d as [|[k0 v0] d IH]; simpl.
  - destruct (String.eqb_spec k k'); reflexivity.
  - destruct (String.eqb_spec k0 k) as [->|Hk0]; simpl.
    + destruct (String.eqb_spec k k'); reflexivity.
    + rewrite IH.
      destruct (String.eqb_spec k0 k') as [->|Hk0'];
        destruct (String.eqb_spec k k'); congruence.
Qed.

Lemma dict_add_keys d k v k' : k' ∈ (dict_add d k v).*1 ↔ k' = k ∨ k' ∈ d.*1.
Proof.
  induction d as [|[k0 v0] d IH]; simpl.
  - rewrite list_elem_of_singleton, elem_of_nil. tauto.
  - destruct (String.eqb_spec k0 k) as [->|Hk0]; simpl.
    + rewrite !elem_of_cons. tauto.
    + rewrite !elem_of_cons, IH. tauto.
Qed.

Lemma dict_add_nodup d k v : NoDup d.*1 → NoDup (dict_add d k v).*1.
Proof.
  induction d as [|[k0 v0] d IH]; simpl; intros Hd.
  - apply NoDup_singleton.
  - apply NoDup_cons in Hd as [Hk0 Hd].
    destruct (String.eqb_spec k0 k) as [->|Hne]; simpl.
    + apply NoDup_cons. done.
    + apply NoDup_cons. split; [|auto].
      rewrite dict_add_keys. intros [?|?]; done.
Qed.

Lemma dict_get_elem d k v : NoDup d.*1 → (k, v) ∈ d ↔ dict_get d k = Some v.
Proof.
  induction d as [|[k0 v0] d IH]; simpl; intros Hd.
  - split; [intros H; inversion H|discriminate].
  - apply NoDup_cons in Hd as [Hk0 Hd]. rewrite elem_of_cons, (IH Hd).
    destruct (String.eqb_spec k0 k) as [->|Hne].
    + split.
      * intros [[= ->]|Hget]; [reflexivity|].
        apply (IH Hd) in Hget. destruct Hk0.
        apply list_elem_of_fmap. exists (k, v). done.
      * intros [= ->]. left. reflexivity.
    + split; [intros [[= ? ?]|?]; [congruence|done]|auto].
Qed.

Lemma category_totals_nodup l d : NoDup d.*1 → NoDup (category_totals l d).*1.
Proof.
  revert d. induction l as [|x l IH]; intros d Hd; simpl; [done|].
  apply IH, dict_add_nodup, Hd.
Qed.

Lemma category_totals_get l d c :
  dict_get (category_totals l d) c =
  match of_category c l with
  | [] => dict_get d c
  | w => Some (fold_left (λ t x, add t (amount x)) w (default zero (dict_get d c)))
  end.
Proof.
  revert d. induction l as [|x l IH]; intros d; simpl; [reflexivity|].
  unfold category_totals in *. rewrite IH, dict_get_add.
  destruct (String.eqb_spec (category x) c) as [->|Hne].
  - destruct (of_category _ l); reflexivity.
  - reflexivity.
Qed.

(** The items of the totals: one for each category that has a record, with
    the sum of the amounts of the records of that category. *)
Lemma category_totals_items l c v :
  (c, v) ∈ category_totals l [] ↔
  of_category c l ≠ [] ∧ v = sum_amounts (of_category c l).
Proof.
  rewrite dict_get_elem by (apply category_totals_nodup; constructor).
  rewrite category_totals_get. unfold sum_amounts. simpl.
  destruct (of_category c l) as [|x w].
  - split; [discriminate|intros [[] _]; reflexivity].
  - split; [intros [= <-]; done|intros [_ ->]; reflexivity].
Qed.

(** The keys of a dictionary differ, so its items in the order of their
    keys stand in a strict order. *)
Lemma ascending_strict {A} (key : A → string) (l : list A) :
  NoDup (key <$> l) → ascending key l → strictly_ascending key l.
Proof.
  intros Hnd Hl. induction Hl as [|x l Hl IH Hx]; [constructor|].
  rewrite fmap_cons in Hnd. apply NoDup_cons in Hnd as [Hx' Hnd].
  constructor; [apply IH, Hnd|].
  rewrite List.Forall_forall in Hx. apply List.Forall_forall. intros y Hy.
  destruct (str_lt (key x) (key y)) eqn:E; [reflexivity|].
  destruct Hx'. rewrite (str_lt_total (key x) (key y) E (Hx y Hy)).
  apply list_elem_of_fmap. exists y. split; [reflexivity|]. apply list_elem_of_In, Hy.
Qed.

Lemma items_strictly_ascending week :
  strictly_ascending fst (sorted fst false (category_totals week [])).
Proof.
  apply ascending_strict; [|apply sorted_ascending].
  rewrite (sorted_perm fst false (category_totals week [])).
  apply category_totals_nodup. constructor.
Qed.

(** *** The grand total, where sums do not round *)

Section Exact.
Context {E : ExactArithmetic F}.

Lemma add_zero_r x : add x zero = x.
Proof. rewrite add_comm. apply add_zero_l. Qed.

Lemma fold_left_add {A} (f : A → num) l z :
  fold_left (λ t i, add t (f i)) l z = add z (foldr (λ i t, add (f i) t) zero l).
Proof.
  revert z. induction l as [|i l IH]; intros z; simpl.
  - rewrite add_zero_r. reflexivity.
  - rewrite IH, add_assoc. reflexivity.
Qed.

Lemma foldr_add_perm {A} (f : A → num) l1 l2 :
  l1 ≡ₚ l2 →
  foldr (λ i t, add (f i) t) zero l1 = foldr (λ i t, add (f i) t) zero l2.
Proof.
  induction 1 as [|i l1 l2 _ IH|i j l|l1 l2 l3 _ IH1 _ IH2]; simpl.
  - reflexivity.
  - rewrite IH. reflexivity.
  - rewrite !add_assoc, (add_comm (f j) (f i)). reflexivity.
  - congruence.
Qed.

Lemma foldr_dict_add d k v :
  foldr (λ i t, add (snd i) t) zero (dict_add d k v) =
  add (foldr (λ i t, add (snd i) t) zero d) v.
Proof.
  induction d as [|[k0 v0] d IH]; simpl.
  - rewrite add_zero_r. reflexivity.
  - destruct (String.eqb k0 k); simpl.
    + rewrite <- !add_assoc. f_equal. apply add_comm.
    + rewrite IH, add_assoc. reflexivity.
Qed.

Lemma foldr_category_totals l d :
  foldr (λ i t, add (snd i) t) zero (category_totals l d) =
  add (foldr (λ i t, add (snd i) t) zero d) (foldr (λ x t, add (amount x) t) zero l).
Proof.
  revert d. induction l as [|x l IH]; intros d; simpl.
  - rewrite add_zero_r. reflexivity.
  - unfold category_totals in *. rewrite IH, foldr_dict_add, add_assoc. reflexivity.
Qed.

(** The sum of the totals by category, in whatever order, is the sum of the
    amounts. *)
Lemma sum_of_totals l items :
  items ≡ₚ category_totals l [] →
  fold_left (λ t i, add t (snd i)) items zero = sum_amounts l.
Proof.
  intros Hp. unfold sum_amounts.
  rewrite (fold_left_add snd), (fold_left_add amount).
  rewrite (foldr_add_perm snd _ _ Hp), foldr_category_totals. simpl.
  rewrite !add_zero_l. reflexivity.
Qed.

End Exact.

(** [weekly_summary] returns when the clock is a week from neither end of
    the calendar and every date of the store reads as a date, and only
    then. *)
Lemma weekly_summary_returns st :
  (weekly_summary st).1 = Ok tt ↔
  ∃ start_date end_date,
    date_add (clock st) (- weekday (clock st)) = Ok start_date ∧
    date_add start_date 6 = Ok end_date ∧
    forallb parses (expenses st) = true.
Proof.
  rewrite weekly_summary_run.
  destruct (date_add (clock st) _) as [s|e0] eqn:Es.
  - destruct (date_add s 6) as [e|e0] eqn:Ee.
    + destruct (forallb parses (expenses st)) eqn:Ep.
      * split; [intros _; exists s, e; auto|reflexivity].
      * split; [discriminate|]. intros (s' & e' & _ & _ & ?). discriminate.
    + split; [discriminate|]. intros (s' & e' & [= <-] & ? & _). congruence.
  - split; [discriminate|]. intros (s' & e' & ? & _). discriminate.
Qed.

Lemma strptime_Ymd_valid s d : strptime_Ymd s = Ok d → valid_date d = true.
Proof.
  unfold strptime_Ymd.
  repeat match goal with
         | |- context [match ?x with _ => _ end] => destruct x eqn:?
         end; try discriminate.
  intros [= <-]. assumption.
Qed.

(** The records of the week are the records of its seven days. *)
Lemma in_week_spec today start_date end_date x d :
  valid_date today = true →
  date_add today (- weekday today) = Ok start_date →
  date_add start_date 6 = Ok end_date →
  strptime_Ymd (date x) = Ok d →
  in_week start_date end_date x = true ↔
  toordinal start_date ≤ toordinal d ≤ toordinal start_date + 6.
Proof.
  intros Hv Hs He Hd.
  destruct (date_add_ok _ _ _ Hv Hs) as [Hvs _].
  destruct (date_add_ok _ _ _ Hvs He) as [Hve Hoe].
  pose proof (strptime_Ymd_valid _ _ Hd) as Hvd.
  unfold in_week. rewrite Hd.
  rewrite (date_le_ordinal _ _ Hvs Hvd), (date_le_ordinal _ _ Hvd Hve).
  rewrite andb_true_iff, !Z.leb_le, Hoe. reflexivity.
Qed.

(** C1, as the program has it: when [weekly_summary] comes to print a
    total, it has added up the amounts of exactly the records whose date
    lies in the week that starts [today.weekday()] days before today and
    ends six days later, both days included; that week starts on a Monday,
    ends on a Sunday and has today in it.  There is one line for each
    category that has a record in the week, the lines stand in the strict
    order of the names, and each shows the sum of the amounts of the records
    of the week that are of the category, added in the order of the store;
    a record outside the week counts nowhere.  The grand total is the sum of
    those sums, added in the order of the lines.  With the rounding of
    [float] that need not be the sum of the amounts; it is where sums do not
    round. *)
Theorem weekly_summary_total st :
  valid_date (clock st) = true →
  (weekly_summary st).1 = Ok tt →
  ∃ start_date end_date,
    date_add (clock st) (- weekday (clock st)) = Ok start_date ∧
    date_add start_date 6 = Ok end_date ∧
    (weekday start_date = 0 ∧ weekday end_date = 6 ∧
     toordinal end_date = toordinal start_date + 6 ∧
     date_le start_date (clock st) = true ∧ date_le (clock st) end_date = true) ∧
    let week := List.filter (in_week start_date end_date) (expenses st) in
    ∃ items total,
      stdout (weekly_summary st).2 =
        stdout st ++ heading start_date end_date ++
        match week with
        | [] => ["No expenses recorded this week."]
        | _ =>
            ((λ item, ljust 20 (fst item) +:+ " $" +:+ rjust 8 (format_2f (snd item)))
               <$> items) ++
            [str_mul "-" 50;
             "TOTAL                $" +:+ rjust 8 (format_2f total);
             str_mul "=" 50 +:+ newline]
        end ∧
      strictly_ascending fst items ∧
      (∀ c v, (c, v) ∈ items ↔
              of_category c week ≠ [] ∧ v = sum_amounts (of_category c week)) ∧
      total = fold_left (λ t i, add t (snd i)) items zero ∧
      (ExactArithmetic F → total = sum_amounts week).
Proof.
  intros Hclock. rewrite weekly_summary_run.
  destruct (date_add (clock st) _) as [s|e0] eqn:Es; [|discriminate].
  destruct (date_add s 6) as [e|e0] eqn:Ee; [|discriminate].
  destruct (forallb parses (expenses st)); [|discriminate].
  intros _. exists s, e. split; [reflexivity|]. split; [exact Ee|].
  split; [exact (week_range_spec _ _ _ Hclock Es Ee)|].
  intros week.
  exists (sorted fst false (category_totals week [])).
  eexists.
  split; [|split; [apply items_strictly_ascending|split; [|split; [reflexivity|]]]].
  - cbn [snd wrote stdout]. unfold summary. fold week.
    destruct week; reflexivity.
  - intros c v. rewrite <- category_totals_items.
    rewrite (sorted_perm fst false (category_totals week [])). reflexivity.
  - intros HE. apply sum_of_totals, sorted_perm.
Qed.

End Summary.

(** ** Adding expenses, and the menu *)

Section Menu.
Context {F : Float} {J : Json}.


Lemma menu_turn_run st :
  menu_turn st =
  match stdin st with
  | [] => (Raise EOFError,
           mkState (filename st) (expenses st) (files st) (clock st) [] (stdout st ++ menu))
  | line :: rest =>
      let st1 := mkState (filename st) (expenses st) (files st) (clock st) rest
                   (stdout st ++ menu) in
      let choice := strip line in
      if String.eqb choice "1" then
        (try_except
           (line ← input "Amount: $";
            amount ← py_float line;
            line ← input "Category (e.g., Food, Transport, Entertainment): ";
            let category := strip line in
            line ← input "Description (optional): ";
            let description := strip line in
            add_expense amount category description)
           is_ValueError
           (print "❌ Invalid amount. Please enter a number.");;
         ret Continue) st1
      else if String.eqb choice "2" then (weekly_summary;; ret Continue) st1
      else if String.eqb choice "3" then (list_all_expenses;; ret Continue) st1
      else if String.eqb choice "4" then (print "Goodbye! 👋";; ret Break) st1
      else (print "❌ Invalid option. Please choose 1-4.";; ret Continue) st1
  end.
Proof.
  unfold menu_turn.
  do 5 (rewrite run_bind, print_run; cbv beta iota).
  rewrite run_bind. unfold input at 1. rewrite !wrote_wrote. cbn [wrote stdin filename expenses files clock stdout app].
  rewrite <- app_assoc. cbn [app].
  destruct (stdin st) as [|line rest]; [reflexivity|]. cbv zeta beta iota.
  repeat (destruct (String.eqb (strip line) _); [reflexivity|]). reflexivity.
Qed.

Lemma appends_ret {A} (a : A) : appends (ret a).
Proof. intros st. exists []. simpl. rewrite app_nil_r. reflexivity. Qed.

Lemma appends_print s : appends (print s).
Proof. intros st. exists [s]. reflexivity. Qed.

Lemma appends_input s : appends (input s).
Proof. intros st. exists [s]. unfold input. destruct (stdin st); reflexivity. Qed.

Lemma appends_py_float s : appends (py_float s).
Proof.
  intros st. exists []. unfold py_float.
  destruct (float_of_str s); simpl; rewrite app_nil_r; reflexivity.
Qed.

Lemma appends_bind {A B} (m : M A) (k : A → M B) :
  appends m → (∀ a, appends (k a)) → appends (m ≫= k).
Proof.
  intros Hm Hk st. rewrite run_bind. destruct (Hm st) as [more1 H1].
  destruct (m st) as [[a|e] st']; simpl in *; [|eauto].
  destruct (Hk a st') as [more2 H2]. exists (more1 ++ more2).
  rewrite H2, H1, app_assoc. reflexivity.
Qed.

Lemma appends_try_except {A} (body handler : M A) catches :
  appends body → appends handler → appends (try_except body catches handler).
Proof.
  intros Hb Hh st. unfold try_except. destruct (Hb st) as [more1 H1].
  destruct (body st) as [[a|e] st']; simpl in *; [eauto|].
  destruct (catches e); simpl; [|eauto].
  destruct (Hh st') as [more2 H2]. exists (more1 ++ more2).
  rewrite H2, H1, app_assoc. reflexivity.
Qed.

Lemma appends_add_expense a c d : appends (add_expense a c d).
Proof. intros st. rewrite add_expense_run. eexists. reflexivity. Qed.

Lemma appends_weekly_summary : appends weekly_summary.
Proof.
  intros st. rewrite weekly_summary_run.
  destruct (date_add (clock st) _) as [s|]; [|exists []; simpl; rewrite app_nil_r; reflexivity].
  destruct (date_add s 6) as [e|]; [|exists []; simpl; rewrite app_nil_r; reflexivity].
  destruct (forallb parses (expenses st)); eexists; reflexivity.
Qed.

Lemma appends_list_all_expenses : appends list_all_expenses.
Proof. intros st. rewrite list_all_expenses_run. eexists. reflexivity. Qed.

(** Every turn starts by showing the menu. *)
Lemma menu_turn_shows_menu st :
  ∃ more, stdout (menu_turn st).2 = stdout st ++ menu ++ more.
Proof.
  rewrite menu_turn_run. destruct (stdin st) as [|line rest].
  { exists []. cbn [snd stdout]. rewrite app_nil_r. reflexivity. }
  cbv zeta. set (st1 := mkState _ _ _ _ rest _).
  assert (∀ m : M flow, appends m → ∃ more, stdout (m st1).2 = stdout st ++ menu ++ more)
    as Hgo.
  { intros m Hm. destruct (Hm st1) as [more Hmore]. exists more.
    rewrite Hmore. unfold st1. simpl. rewrite <- app_assoc. reflexivity. }
  repeat match goal with
         | |- context [if ?b then _ else _] => destruct b
         end;
    apply Hgo;
    repeat first
      [ apply appends_ret | apply appends_print | apply appends_input
      | apply appends_py_float | apply appends_add_expense
      | apply appends_weekly_summary | apply appends_list_all_expenses
      | apply appends_try_except
      | apply appends_bind; [|intros ?] ].
Qed.

(** A turn in which the text entered for the amount is no number. *)
Lemma menu_turn_rejects st choice line rest :
  stdin st = choice :: line :: rest →
  strip choice = "1" →
  float_of_str line = None →
  menu_turn st =
  (Ok Continue,
   mkState (filename st) (expenses st) (files st) (clock st) rest
     (stdout st ++ menu ++ ["Amount: $"; "❌ Invalid amount. Please enter a number."])).
Proof.
  intros Hin Hchoice Hline.
  rewrite menu_turn_run, Hin. cbv zeta. rewrite Hchoice.
  change (String.eqb "1" "1") with true. cbv iota.
  rewrite run_bind. unfold try_except.
  rewrite run_bind. unfold input at 1. cbn [stdin stdout filename expenses files clock].
  rewrite run_bind. unfold py_float. rewrite Hline. unfold raise.
  cbn [is_ValueError]. rewrite print_run, run_ret. unfold wrote.
  cbn [stdin stdout filename expenses files clock].
  rewrite <- !app_assoc. reflexivity.
Qed.

(** A turn in which the text entered for the amount is a number. *)
Lemma menu_turn_accepts st choice line a l3 l4 rest :
  stdin st = choice :: line :: l3 :: l4 :: rest →
  strip choice = "1" →
  float_of_str line = Some a →
  menu_turn st =
  (Ok Continue,
   (add_expense a (strip l3) (strip l4)
      (mkState (filename st) (expenses st) (files st) (clock st) rest
         (stdout st ++ menu ++
          ["Amount: $"; "Category (e.g., Food, Transport, Entertainment): ";
           "Description (optional): "]))).2).
Proof.
  intros Hin Hchoice Hline.
  rewrite menu_turn_run, Hin. cbv zeta. rewrite Hchoice.
  change (String.eqb "1" "1") with true. cbv iota.
  rewrite run_bind. unfold try_except.
  rewrite run_bind. unfold input at 1. cbn [stdin stdout filename expenses files clock].
  rewrite run_bind. unfold py_float. rewrite Hline, run_ret.
  rewrite run_bind. unfold input at 1. cbn [stdin stdout filename expenses files clock].
  rewrite run_bind. unfold input at 1. cbn [stdin stdout filename expenses files clock].
  rewrite <- !app_assoc. cbn [app].
  rewrite add_expense_run. reflexivity.
Qed.

(** C8: a turn in which the text entered for the amount is no number
    leaves the sequence in memory and the files as they were, shows the
    error message, and ends neither the loop nor the run: the loop goes on
    to its next turn, which shows the menu again. *)
Theorem non_numeric_amount st choice line rest :
  stdin st = choice :: line :: rest →
  strip choice = "1" →
  float_of_str line = None →
  ∃ st',
    menu_turn st = (Ok Continue, st') ∧
    expenses st' = expenses st ∧
    files st' = files st ∧
    stdin st' = rest ∧
    stdout st' =
      stdout st ++ menu ++ ["Amount: $"; "❌ Invalid amount. Please enter a number."] ∧
    (∀ turns, menu_loop (S turns) st = menu_loop turns st') ∧
    ∃ more, stdout (menu_turn st').2 = stdout st' ++ menu ++ more.
Proof.
  intros Hin Hchoice Hline.
  pose proof (menu_turn_rejects st choice line rest Hin Hchoice Hline) as Hturn.
  eexists. split; [exact Hturn|]. cbn [expenses files stdin stdout].
  repeat split.
  - intros turns. cbn [menu_loop]. rewrite run_bind, Hturn. reflexivity.
  - apply menu_turn_shows_menu.
Qed.

(** C5, as the program has it: [add_expense] checks nothing.  Whatever the
    amount, it appends the record, writes the whole sequence to the file
    and returns.  The one check of an amount is the call of [float] in
    [main]: a turn of the menu in which [float] raises [ValueError] on the
    text entered shows the message and goes on with the store as it was,
    and a turn in which [float] accepts the text adds the value [float]
    gives, whatever it is. *)
Theorem add_expense_accepts st :
  (∀ a c d,
     add_expense a c d st =
     (Ok tt,
      let all := expenses st ++ [mkexpense (strftime_Ymd (clock st)) a c (Some d)] in
      mkState (filename st) all (<[filename st := json_dump all]> (files st))
        (clock st) (stdin st)
        (stdout st ++ ["✓ Added $" +:+ format_2f a +:+ " to " +:+ c]))) ∧
  (∀ choice line rest,
     stdin st = choice :: line :: rest →
     strip choice = "1" →
     float_of_str line = None →
     (menu_turn st).1 = Ok Continue ∧
     expenses (menu_turn st).2 = expenses st ∧
     files (menu_turn st).2 = files st ∧
     last (stdout (menu_turn st).2) = Some "❌ Invalid amount. Please enter a number.") ∧
  (∀ choice line a l3 l4 rest,
     stdin st = choice :: line :: l3 :: l4 :: rest →
     strip choice = "1" →
     float_of_str line = Some a →
     (menu_turn st).1 = Ok Continue ∧
     expenses (menu_turn st).2 =
       expenses st ++ [mkexpense (strftime_Ymd (clock st)) a (strip l3) (Some (strip l4))]).
Proof.
  split; [intros a c d; apply add_expense_run|]. split.
  - intros choice line rest Hin Hchoice Hline.
    rewrite (menu_turn_rejects st choice line rest Hin Hchoice Hline).
    cbn [fst snd expenses files stdout]. repeat split.
    rewrite !last_app. reflexivity.
  - intros choice line a l3 l4 rest Hin Hchoice Hline.
    rewrite (menu_turn_accepts st choice line a l3 l4 rest Hin Hchoice Hline).
    rewrite add_expense_run. split; reflexivity.
Qed.

(** C6, as the program has it: the date of every record of a reachable
    store reads as a date of the calendar; the amount of a record is the
    amount that was given, of either sign. *)
Theorem stored_dates_parse st :
  reachable st →
  Forall (λ x, ∃ d, strptime_Ymd (date x) = Ok d ∧ valid_date d = true) (expenses st) ∧
  ∀ a c d, ∃ x,
    expenses (add_expense a c d st).2 = expenses st ++ [x] ∧ amount x = a.
Proof.
  intros Hst. split.
  - induction Hst as [st Hempty|st a c d _ IH Hclock|st today _ IH].
    + rewrite Hempty. constructor.
    + rewrite add_expense_run. cbn [snd expenses].
      apply Forall_app. split; [exact IH|].
      constructor; [|constructor].
      exists (clock st). split; [apply strptime_strftime, Hclock|exact Hclock].
    + exact IH.
  - intros a c d. eexists. rewrite add_expense_run. cbn [snd expenses].
    split; reflexivity.
Qed.

End Menu.

(** ** The loop ends *)

Section Ends.
Context {F : Float} {J : Json}.

Lemma reads_on_ret {A} (a : A) : reads_on (ret a).
Proof. intros st. reflexivity. Qed.

Lemma reads_on_print s : reads_on (print s).
Proof. intros st. reflexivity. Qed.

Lemma reads_on_input s : reads_on (input s).
Proof. intros st. unfold input. destruct (stdin st); simpl; lia. Qed.

Lemma reads_on_py_float s : reads_on (py_float s).
Proof. intros st. unfold py_float. destruct (float_of_str s); reflexivity. Qed.

Lemma reads_on_bind {A B} (m : M A) (k : A → M B) :
  reads_on m → (∀ a, reads_on (k a)) → reads_on (m ≫= k).
Proof.
  intros Hm Hk st. rewrite run_bind. specialize (Hm st).
  destruct (m st) as [[a|e] st']; simpl in *; [|done].
  specialize (Hk a st'). lia.
Qed.

Lemma reads_on_try_except {A} (body handler : M A) catches :
  reads_on body → reads_on handler → reads_on (try_except body catches handler).
Proof.
  intros Hb Hh st. unfold try_except. specialize (Hb st).
  destruct (body st) as [[a|e] st']; simpl in *; [done|].
  destruct (catches e); simpl; [|done].
  specialize (Hh st'). lia.
Qed.

Lemma reads_on_read_only {A} (m : M A) :
  (∀ st, stdin (m st).2 = stdin st) → reads_on m.
Proof. intros H st. rewrite H. reflexivity. Qed.

Lemma reads_on_add_expense a c d : reads_on (add_expense a c d).
Proof. apply reads_on_read_only. intros st. rewrite add_expense_run. reflexivity. Qed.

Lemma reads_on_weekly_summary : reads_on weekly_summary.
Proof.
  apply reads_on_read_only. intros st. rewrite weekly_summary_run.
  destruct (date_add (clock st) _) as [s|]; [|reflexivity].
  destruct (date_add s 6) as [e|]; [|reflexivity].
  destruct (forallb parses (expenses st)); reflexivity.
Qed.

Lemma reads_on_list_all_expenses : reads_on list_all_expenses.
Proof.
  apply reads_on_read_only. intros st. rewrite list_all_expenses_run. reflexivity.
Qed.

(** A turn that does not raise has read a line. *)
Lemma menu_turn_reads st f st' :
  menu_turn st = (Ok f, st') → (length (stdin st') < length (stdin st))%nat.
Proof.
  rewrite menu_turn_run. destruct (stdin st) as [|line rest]; [discriminate|].
  cbv zeta.
  set (st1 := mkState _ _ _ _ rest _).
  assert (∀ m : M flow, reads_on m → m st1 = (Ok f, st') →
          (length (stdin st') < length (line :: rest))%nat) as Hgo.
  { intros m Hm Hrun. specialize (Hm st1). rewrite Hrun in Hm. simpl in *. lia. }
  repeat match goal with
         | |- context [if ?b then _ else _] => destruct b
         end;
    (intros Hrun; eapply Hgo; [|exact Hrun]);
    repeat first
      [ apply reads_on_ret | apply reads_on_print | apply reads_on_input
      | apply reads_on_py_float | apply reads_on_add_expense
      | apply reads_on_weekly_summary | apply reads_on_list_all_expenses
      | apply reads_on_try_except
      | apply reads_on_bind; [|intros ?] ].
Qed.

Lemma menu_loop_ends turns st :
  (length (stdin st) < turns)%nat → (menu_loop turns st).1 ≠ Ok None.
Proof.
  revert st. induction turns as [|turns IH]; intros st Hlen; [lia|].
  cbn [menu_loop]. rewrite run_bind.
  destruct (menu_turn st) as [[[]|e] st'] eqn:Hturn; simpl; try discriminate.
  apply IH. apply menu_turn_reads in Hturn. lia.
Qed.

(** The turns [main] allows for are never used up: a run ends by the
    choice to exit or by an exception. *)
Lemma main_ends st : (main st).1 ≠ Ok None.
Proof.
  unfold main. rewrite run_bind.
  destruct (init "expenses.json" st) as [[[]|e] st']; simpl; [|discriminate].
  rewrite run_bind. unfold get.
  apply (menu_loop_ends (S (length (stdin st'))) st'). lia.
Qed.

End Ends.

(** * Further properties *)

(** ** The week of an expense *)

Section Week.
Context {F : Float} {J : Json}.

(** Every day up to Sunday 9999-12-26 has its week in the calendar; the
    five days after it have not. *)
Lemma week_exists today :
  valid_date today = true →
  if date_le today last_sunday
  then ∃ s e, date_add today (- weekday today) = Ok s ∧ date_add s 6 = Ok e
  else ∃ s, date_add today (- weekday today) = Ok s ∧ date_add s 6 = Raise OverflowError.
Proof.
  intros Hv. rewrite (date_le_ordinal today last_sunday Hv eq_refl).
  change (toordinal last_sunday) with 3652054.
  pose proof (toordinal_range _ Hv) as Hr. unfold MAXORDINAL in Hr.
  assert (∃ s, date_add today (- weekday today) = Ok s ∧
               toordinal s = toordinal today - weekday today) as (s & Hs & Hos).
  { unfold date_add, weekday, MAXORDINAL.
    set (n := toordinal today) in *. clearbody n.
    assert ((0 <? n + - ((n + 6) mod 7)) && (n + - ((n + 6) mod 7) <=? 3652059) = true) as ->.
    { apply andb_true_iff. rewrite Z.ltb_lt, Z.leb_le. Z.div_mod_to_equations. lia. }
    eexists. split; [reflexivity|].
    replace (n - (n + 6) mod 7) with (n + - ((n + 6) mod 7)) by lia.
    apply ord2ymd_valid. unfold MAXORDINAL. Z.div_mod_to_equations. lia. }
  unfold weekday in Hos.
  destruct (toordinal today <=? 3652054) eqn:E.
  - apply Z.leb_le in E. exists s. unfold date_add at 2. rewrite Hos. unfold MAXORDINAL.
    set (n := toordinal today) in *. clearbody n.
    assert ((0 <? n - (n + 6) mod 7 + 6) && (n - (n + 6) mod 7 + 6 <=? 3652059) = true) as ->.
    { apply andb_true_iff. rewrite Z.ltb_lt, Z.leb_le. Z.div_mod_to_equations. lia. }
    eauto.
  - apply Z.leb_gt in E. exists s. split; [exact Hs|].
    unfold date_add. rewrite Hos. unfold MAXORDINAL.
    set (n := toordinal today) in *. clearbody n.
    assert ((0 <? n - (n + 6) mod 7 + 6) && (n - (n + 6) mod 7 + 6 <=? 3652059) = false) as ->.
    { apply andb_false_iff. right. apply Z.leb_gt. Z.div_mod_to_equations. lia. }
    reflexivity.
Qed.

(** X1: [get_week_range] changes nothing, and returns for every day up to
    Sunday 9999-12-26: the Monday on or before the day and the Sunday six
    days after that Monday, with the day between them.  On the five days
    that follow, the Sunday is past the last date there is, and it raises
    [OverflowError]. *)
Theorem get_week_range_outcome st :
  valid_date (clock st) = true →
  if date_le (clock st) last_sunday
  then ∃ s e,
         get_week_range st = (Ok (s, e), st) ∧
         valid_date s = true ∧ valid_date e = true ∧
         weekday s = 0 ∧ weekday e = 6 ∧ toordinal e = toordinal s + 6 ∧
         date_le s (clock st) = true ∧ date_le (clock st) e = true
  else get_week_range st = (Raise OverflowError, st).
Proof.
  intros Hv. pose proof (week_exists _ Hv) as H. rewrite get_week_range_run.
  destruct (date_le (clock st) last_sunday).
  - destruct H as (s & e & Hs & He). exists s, e. rewrite Hs, He.
    destruct (date_add_ok _ _ _ Hv Hs) as [Hvs _].
    destruct (date_add_ok _ _ _ Hvs He) as [Hve _].
    destruct (week_range_spec _ _ _ Hv Hs He) as (? & ? & ? & ? & ?).
    repeat split; assumption.
  - destruct H as (s & Hs & He). rewrite Hs, He. reflexivity.
Qed.

(** The record added on a day is of the week of another day when the two
    days have the same Monday. *)
Lemma new_record_in_week st a c d today s e :
  valid_date (clock st) = true → valid_date today = true →
  date_add today (- weekday today) = Ok s → date_add s 6 = Ok e →
  in_week s e (new_record st a c d) = true ↔ monday_of (clock st) = monday_of today.
Proof.
  intros Hv Ht Hs He.
  rewrite (in_week_spec today s e (new_record st a c d) (clock st) Ht Hs He
             (strptime_strftime _ Hv)).
  destruct (date_add_ok _ _ _ Ht Hs) as [_ Hos]. rewrite Hos.
  unfold monday_of, weekday.
  set (n := toordinal (clock st)). set (m := toordinal today). clearbody n m.
  Z.div_mod_to_equations. lia.
Qed.


Lemma sum_amounts_snoc l x : sum_amounts (l ++ [x]) = add (sum_amounts l) (amount x).
Proof. unfold sum_amounts. rewrite fold_left_app. reflexivity. Qed.

Lemma of_category_snoc c l x :
  category x = c → of_category c (l ++ [x]) = of_category c l ++ [x].
Proof.
  intros <-. unfold of_category. rewrite List.filter_app. simpl.
  rewrite String.eqb_refl. reflexivity.
Qed.


End Week.

(** ** The turns of the menu *)

Section Turns.
Context {F : Float} {J : Json}.

(** Option 1, by the lines there are to read. *)
Lemma add_turn_run st :
  (try_except
     (line ← input "Amount: $";
      amount ← py_float line;
      line ← input "Category (e.g., Food, Transport, Entertainment): ";
      let category := strip line in
      line ← input "Description (optional): ";
      let description := strip line in
      add_expense amount category description)
     is_ValueError
     (print "❌ Invalid amount. Please enter a number.");;
   ret Continue) st =
  match stdin st with
  | [] => (Raise EOFError, with_stdin (wrote st ["Amount: $"]) [])
  | text :: rest1 =>
      match float_of_str text with
      | None =>
          (Ok Continue,
           with_stdin (wrote st ["Amount: $"; "❌ Invalid amount. Please enter a number."])
             rest1)
      | Some a =>
          let prompts :=
            ["Amount: $"; "Category (e.g., Food, Transport, Entertainment): "] in
          match rest1 with
          | [] => (Raise EOFError, with_stdin (wrote st prompts) [])
          | l3 :: [] =>
              (Raise EOFError,
               with_stdin (wrote st (prompts ++ ["Description (optional): "])) [])
          | l3 :: l4 :: rest =>
              (Ok Continue,
               (add_expense a (strip l3) (strip l4)
                  (with_stdin (wrote st (prompts ++ ["Description (optional): "])) rest)).2)
          end
      end
  end.
Proof.
  rewrite run_bind. unfold try_except. rewrite run_bind. unfold input at 1.
  destruct (stdin st) as [|text rest1]; [reflexivity|].
  cbv beta iota. rewrite run_bind. unfold py_float.
  destruct (float_of_str text) as [a|].
  2:{ unfold raise. cbn [is_ValueError]. rewrite print_run, run_ret.
      unfold with_stdin, wrote. cbn [stdin stdout filename expenses files clock].
      rewrite <- app_assoc. reflexivity. }
  rewrite run_ret. cbv beta iota. rewrite run_bind. unfold input at 1.
  cbn [stdin stdout filename expenses files clock].
  destruct rest1 as [|l3 rest2].
  { cbv zeta. unfold with_stdin, wrote. cbn [stdin stdout filename expenses files clock].
    rewrite <- app_assoc. reflexivity. }
  cbv beta iota zeta. rewrite run_bind. unfold input at 1.
  cbn [stdin stdout filename expenses files clock].
  destruct rest2 as [|l4 rest].
  { unfold with_stdin, wrote. cbn [stdin stdout filename expenses files clock].
    rewrite <- !app_assoc. reflexivity. }
  cbv beta iota. rewrite !add_expense_run. cbv zeta. unfold with_stdin, wrote.
  cbn [stdin stdout filename expenses files clock snd].
  rewrite run_ret, <- !app_assoc. reflexivity.
Qed.

(** What a turn does to the tracker and the files: nothing, or what one
    [add_expense] does. *)
Lemma menu_turn_effect st :
  same_store st (menu_turn st).2 ∨
  ∃ a c d st1,
    same_store st st1 ∧ menu_turn st = (Ok Continue, (add_expense a c d st1).2).
Proof.
  rewrite menu_turn_run. destruct (stdin st) as [|line rest].
  { left. repeat split. }
  cbv zeta. set (st1 := mkState _ _ _ _ rest _).
  assert (same_store st st1) as H1 by (repeat split).
  assert (∀ m : M flow, read_only m → same_store st (m st1).2) as Hgo.
  { intros m Hm. eapply same_store_trans; [exact H1|apply Hm]. }
  destruct (String.eqb (strip line) "1").
  { rewrite add_turn_run. destruct (stdin st1) as [|text rest1]; [left; exact H1|].
    destruct (float_of_str text) as [a|]; [|left; exact H1]. cbv zeta.
    destruct rest1 as [|l3 [|l4 rest2]]; [left; exact H1..|].
    right. eexists a, (strip l3), (strip l4), _. split; [|reflexivity]. exact H1. }
  left.
  repeat match goal with
         | |- context [if ?b then _ else _] => destruct b
         end;
    apply Hgo;
    (apply read_only_bind; [|intros ?; apply read_only_ret]);
    first [ apply read_only_weekly_summary | apply read_only_list_all_expenses
          | apply read_only_print ].
Qed.

(** The lines a turn that returns has read, and how a turn ends the
    loop. *)
Lemma menu_turn_lines st f st' :
  menu_turn st = (Ok f, st') →
  ∃ line taken,
    stdin st = line :: taken ++ stdin st' ∧
    (f = Break →
     strip line = "4" ∧ taken = [] ∧ stdout st' = stdout st ++ menu ++ ["Goodbye! 👋"]).
Proof.
  rewrite menu_turn_run. destruct (stdin st) as [|line rest]; [discriminate|].
  cbv zeta. set (st1 := mkState _ _ _ _ rest _).
  destruct (String.eqb (strip line) "1").
  { rewrite add_turn_run. cbn [stdin st1].
    destruct rest as [|text rest1]; [discriminate|].
    destruct (float_of_str text) as [a|].
    - cbv zeta. destruct rest1 as [|l3 [|l4 rest2]]; [discriminate..|].
      rewrite add_expense_run. intros [= <- <-]. exists line, [text; l3; l4].
      split; [reflexivity|discriminate].
    - intros [= <- <-]. exists line, [text]. split; [reflexivity|discriminate]. }
  destruct (String.eqb (strip line) "2").
  { rewrite run_bind, weekly_summary_run.
    destruct (date_add (clock st1) _) as [s|]; [|discriminate].
    destruct (date_add s 6) as [e|]; [|discriminate].
    destruct (forallb parses (expenses st1)); [|discriminate].
    intros [= <- <-]. exists line, []. split; [reflexivity|discriminate]. }
  destruct (String.eqb (strip line) "3").
  { rewrite run_bind, list_all_expenses_run.
    intros [= <- <-]. exists line, []. split; [reflexivity|discriminate]. }
  rewrite run_bind, print_run, run_ret, run_bind, print_run, run_ret.
  destruct (String.eqb_spec (strip line) "4") as [H4|H4].
  - intros [= <- <-]. exists line, []. split; [reflexivity|]. intros _.
    split; [exact H4|]. split; [reflexivity|].
    unfold wrote, st1. cbn [stdout]. symmetry. apply app_assoc.
  - intros [= <- <-]. exists line, []. split; [reflexivity|discriminate].
Qed.

Lemma menu_loop_exit turns st st' :
  menu_loop turns st = (Ok (Some tt), st') →
  ∃ before line,
    stdin st = before ++ line :: stdin st' ∧ strip line = "4" ∧
    last (stdout st') = Some "Goodbye! 👋".
Proof.
  revert st. induction turns as [|turns IH]; intros st; [discriminate|].
  cbn [menu_loop]. rewrite run_bind.
  destruct (menu_turn st) as [[[]|e] st1] eqn:Hturn; [| |discriminate].
  - intros Hloop. destruct (IH _ Hloop) as (before & line & Hin & H4 & Hout).
    destruct (menu_turn_lines _ _ _ Hturn) as (line0 & taken & Hin0 & _).
    exists (line0 :: taken ++ before), line.
    split; [|split; assumption].
    rewrite Hin0, Hin. cbn [app]. rewrite <- app_assoc. reflexivity.
  - intros [= <-].
    destruct (menu_turn_lines _ _ _ Hturn) as (line & taken & Hin & H).
    destruct (H eq_refl) as (H4 & -> & Hout).
    exists [], line. split; [exact Hin|]. split; [exact H4|].
    rewrite Hout, !last_app. reflexivity.
Qed.

Lemma main_run st :
  main st =
  match init "expenses.json" st with
  | (Ok _, st') => menu_loop (S (length (stdin st'))) st'
  | (Raise e, st') => (Raise e, st')
  end.
Proof.
  unfold main. rewrite run_bind. destruct (init _ st) as [[[]|e] st']; reflexivity.
Qed.

(** X4: the loop ends only by option 4.  A turn breaks the loop exactly
    when the line it reads for the choice is [4] with, possibly, blanks
    around it; and when [main] returns, the last line it has read is such
    a line, the last thing it has written is the goodbye, and the lines
    that follow are left unread. *)
Theorem exit_is_by_option_4 st st' :
  (menu_turn st = (Ok Break, st') ↔
   ∃ line rest,
     stdin st = line :: rest ∧ strip line = "4" ∧
     st' = with_stdin (wrote st (menu ++ ["Goodbye! 👋"])) rest) ∧
  (main st = (Ok (Some tt), st') →
   ∃ before line,
     stdin st = before ++ line :: stdin st' ∧ strip line = "4" ∧
     last (stdout st') = Some "Goodbye! 👋").
Proof.
  split.
  - split.
    + intros Hturn.
      destruct (menu_turn_lines _ _ _ Hturn) as (line & taken & Hin & H).
      destruct (H eq_refl) as (H4 & -> & Hout).
      exists line, (stdin st'). split; [exact Hin|]. split; [exact H4|].
      destruct (menu_turn_effect st) as [Hsame|(a & c & d & st1 & _ & Hadd)];
        [|congruence].
      rewrite Hturn in Hsame. destruct Hsame as (Hf & He & Hfs & Hc).
      destruct st'. unfold with_stdin, wrote. simpl in *. congruence.
    + intros (line & rest & Hin & H4 & ->).
      rewrite menu_turn_run, Hin. cbv zeta. rewrite H4.
      change (String.eqb "4" "1") with false. change (String.eqb "4" "2") with false.
      change (String.eqb "4" "3") with false. change (String.eqb "4" "4") with true.
      cbv beta iota. rewrite run_bind, print_run, run_ret.
      unfold with_stdin, wrote. cbn [stdin stdout filename expenses files clock].
      rewrite <- app_assoc. reflexivity.
  - rewrite main_run, init_run.
    destruct (files st !! "expenses.json") as [t|]; [destruct (json_load t)|];
      try discriminate; intros Hloop; apply menu_loop_exit in Hloop; exact Hloop.
Qed.

(** X5: [input] at the end of the input raises [EOFError], which nothing
    catches.  A turn for which no line is left, or option 1 with fewer than
    three lines left for its questions, the first of them a number, ends
    with that exception and with the tracker and the files as they were;
    the handler of [ValueError] does not take it.  So does [main] once the
    tracker is built, when there is no line at all. *)
Theorem end_of_input st :
  (stdin st = [] →
   menu_turn st = (Raise EOFError, wrote st menu)) ∧
  (∀ choice answers,
     stdin st = choice :: answers → strip choice = "1" →
     (length answers < 3)%nat →
     (∀ text, head answers = Some text → float_of_str text ≠ None) →
     (menu_turn st).1 = Raise EOFError ∧
     same_store st (menu_turn st).2 ∧
     stdin (menu_turn st).2 = []) ∧
  (stdin st = [] → (init "expenses.json" st).1 = Ok tt →
   (main st).1 = Raise EOFError ∧ stdout (main st).2 = stdout st ++ menu).
Proof.
  split; [|split].
  - intros Hin. rewrite menu_turn_run, Hin. unfold wrote. rewrite <- Hin. reflexivity.
  - intros choice answers Hin H1 Hlen Hnum.
    rewrite menu_turn_run, Hin. cbv zeta. rewrite H1.
    change (String.eqb "1" "1") with true.
    cbv beta iota. rewrite add_turn_run. cbn [stdin].
    destruct answers as [|text rest1]; [repeat split|].
    destruct (float_of_str text) as [a|] eqn:Ea; [|destruct (Hnum text eq_refl Ea)].
    cbv zeta. destruct rest1 as [|l3 [|l4 rest2]]; [repeat split..|].
    simpl in Hlen. lia.
  - intros Hin. rewrite main_run, init_run.
    destruct (files st !! "expenses.json") as [t|]; [destruct (json_load t)|];
      try discriminate; intros _; cbn [stdin]; rewrite Hin; cbn [length menu_loop];
      rewrite run_bind, menu_turn_run; cbn [stdin]; split; reflexivity.
Qed.

Lemma in_sync_same_store st st' : same_store st st' → in_sync st → in_sync st'.
Proof.
  intros (Hf & He & Hfs & _). unfold in_sync.
  rewrite !load_expenses_run, Hf, He, Hfs.
  destruct (files st !! filename st) as [t|]; [destruct (json_load t)|]; done.
Qed.

Lemma in_sync_init name st : (init name st).1 = Ok tt → in_sync (init name st).2.
Proof.
  rewrite init_run. unfold in_sync.
  destruct (files st !! name) as [t|] eqn:Ef; [destruct (json_load t) as [d|] eqn:Et|];
    [|discriminate|]; intros _; cbn [snd]; rewrite load_expenses_run; cbn [files filename];
    rewrite Ef; [rewrite Et|]; reflexivity.
Qed.

(** What the turns of the loop keep: the name of the file, the records
    there were, and every other file. *)
Lemma menu_turn_keeps st :
  filename (menu_turn st).2 = filename st ∧
  expenses st `prefix_of` expenses (menu_turn st).2 ∧
  ∀ name, name ≠ filename st → files (menu_turn st).2 !! name = files st !! name.
Proof.
  destruct (menu_turn_effect st) as [(Hf & He & Hfs & _)|(a & c & d & st1 & Hsame & ->)].
  - rewrite Hf, He, Hfs. done.
  - destruct Hsame as (Hf & He & Hfs & _).
    rewrite add_expense_run. cbv zeta. cbn [snd filename expenses files].
    rewrite Hf, He, Hfs. split; [reflexivity|]. split; [apply prefix_app_r; reflexivity|].
    intros name Hname. apply lookup_insert_ne. congruence.
Qed.

Lemma menu_loop_keeps turns st :
  filename (menu_loop turns st).2 = filename st ∧
  expenses st `prefix_of` expenses (menu_loop turns st).2 ∧
  ∀ name, name ≠ filename st → files (menu_loop turns st).2 !! name = files st !! name.
Proof.
  revert st. induction turns as [|turns IH]; intros st; [done|].
  cbn [menu_loop]. rewrite run_bind.
  destruct (menu_turn_keeps st) as (Hf & He & Hfs).
  destruct (menu_turn st) as [[[]|e] st1]; cbn [snd] in *; [|done..].
  destruct (IH st1) as (Hf1 & He1 & Hfs1).
  split; [congruence|]. split; [etrans; eassumption|].
  intros name Hname. rewrite Hfs1 by congruence. apply Hfs, Hname.
Qed.

(** X6: the program only ever adds records, and writes no file but its
    own.  A turn of the menu leaves the tracker and every file as they
    were, or adds one record, dated today, after the records there are and
    writes the new sequence to the tracker's file.  Over a whole run of
    [main], the records loaded at the start stay, in their order, the first
    records of the tracker, and every file but [expenses.json] is as it
    was. *)
Theorem records_are_only_added st :
  (same_store st (menu_turn st).2 ∨
   ∃ a c d,
     (menu_turn st).1 = Ok Continue ∧
     filename (menu_turn st).2 = filename st ∧
     expenses (menu_turn st).2 = expenses st ++ [new_record st a c d] ∧
     files (menu_turn st).2 =
       <[filename st := json_dump (expenses st ++ [new_record st a c d])]> (files st)) ∧
  expenses (init "expenses.json" st).2 `prefix_of` expenses (main st).2 ∧
  (∀ name, name ≠ "expenses.json" → files (main st).2 !! name = files st !! name).
Proof.
  split.
  { destruct (menu_turn_effect st) as [H|(a & c & d & st1 & Hsame & ->)]; [left; exact H|].
    right. exists a, c, d. destruct Hsame as (Hf & He & Hfs & Hc).
    rewrite add_expense_run. cbv zeta. cbn [fst snd filename expenses files].
    unfold new_record. rewrite Hf, He, Hfs, Hc. done. }
  rewrite main_run, init_run.
  destruct (files st !! "expenses.json") as [t|]; [destruct (json_load t) as [d0|]|];
    cbn [snd expenses files stdin]; [|done|].
  - set (st0 := mkState _ d0 _ _ _ _).
    destruct (menu_loop_keeps (S (length (stdin st))) st0) as (_ & He & Hfs).
    split; [exact He|]. intros name Hname. apply (Hfs name). exact Hname.
  - set (st0 := mkState _ [] _ _ _ _).
    destruct (menu_loop_keeps (S (length (stdin st))) st0) as (_ & He & Hfs).
    split; [exact He|]. intros name Hname. apply (Hfs name). exact Hname.
Qed.

Section Sync.
Context {R : JsonRoundTrip J}.

Lemma in_sync_add_expense a c d st : in_sync (add_expense a c d st).2.
Proof.
  unfold in_sync. rewrite add_expense_run. cbv zeta. cbn [snd].
  rewrite load_expenses_run. cbn [files filename expenses].
  rewrite lookup_insert_eq, json_load_dump. reflexivity.
Qed.

Lemma in_sync_menu_turn st : in_sync st → in_sync (menu_turn st).2.
Proof.
  destruct (menu_turn_effect st) as [H|(a & c & d & st1 & _ & ->)].
  - apply in_sync_same_store, H.
  - intros _. apply in_sync_add_expense.
Qed.

Lemma in_sync_menu_loop turns st : in_sync st → in_sync (menu_loop turns st).2.
Proof.
  revert st. induction turns as [|turns IH]; intros st H; [exact H|].
  cbn [menu_loop]. rewrite run_bind.
  pose proof (in_sync_menu_turn st H) as H1.
  destruct (menu_turn st) as [[[]|e] st1]; cbn [snd] in *; auto.
Qed.

(** X7: where a document that was dumped loads as itself, the file always
    holds what the tracker holds.  Once the tracker is built, loading its
    file would give the sequence in memory; every turn of the menu keeps
    that so, however it ends; and so it is when [main] ends, by the exit or
    by an exception. *)
Theorem file_follows_memory st :
  (∀ name, (init name st).1 = Ok tt → in_sync (init name st).2) ∧
  (∀ a c d, in_sync (add_expense a c d st).2) ∧
  (in_sync st → in_sync (menu_turn st).2) ∧
  ((init "expenses.json" st).1 = Ok tt → in_sync (main st).2).
Proof.
  split; [intros name; apply in_sync_init|].
  split; [intros a c d; apply in_sync_add_expense|].
  split; [apply in_sync_menu_turn|].
  intros Hinit. pose proof (in_sync_init _ _ Hinit) as H0.
  rewrite main_run. destruct (init "expenses.json" st) as [[[]|e] st0]; [|discriminate].
  apply in_sync_menu_loop, H0.
Qed.

End Sync.

(** X8: one record whose date does not read as a date stops the weekly
    summary, whatever week the other records are of: [weekly_summary]
    writes the heading and raises [ValueError].  Option 2 of the menu does
    not catch it, so the turn, the loop and the run end with it. *)
Theorem unreadable_date_ends_run st x :
  In x (expenses st) → parses x = false →
  valid_date (clock st) = true → date_le (clock st) last_sunday = true →
  (∃ s e,
     get_week_range st = (Ok (s, e), st) ∧
     weekly_summary st = (Raise ValueError, wrote st (heading s e))) ∧
  (∀ line rest,
     stdin st = line :: rest → strip line = "2" →
     (menu_turn st).1 = Raise ValueError ∧
     (∀ turns, (menu_loop (S turns) st).1 = Raise ValueError) ∧
     same_store st (menu_turn st).2).
Proof.
  intros Hx Hbad Hv Hlast.
  assert (forallb parses (expenses st) = false) as Hall.
  { destruct (forallb parses (expenses st)) eqn:E; [|reflexivity].
    rewrite forallb_forall in E. rewrite (E x Hx) in Hbad. discriminate. }
  pose proof (week_exists _ Hv) as H. rewrite Hlast in H.
  destruct H as (s & e & Hs & He).
  split.
  { exists s, e. rewrite get_week_range_run, weekly_summary_run, Hs, He, Hall. done. }
  intros line rest Hin H2.
  assert (menu_turn st =
          (Raise ValueError,
           with_stdin (wrote st (menu ++ heading s e)) rest)) as Hturn.
  { rewrite menu_turn_run, Hin. cbv zeta. rewrite H2.
    change (String.eqb "2" "1") with false. change (String.eqb "2" "2") with true.
    cbv beta iota. rewrite run_bind, weekly_summary_run. cbn [clock expenses].
    rewrite Hs, He, Hall. unfold with_stdin, wrote.
    cbn [stdin stdout filename expenses files clock]. rewrite <- app_assoc. reflexivity. }
  split; [rewrite Hturn; reflexivity|]. split.
  - intros turns. cbn [menu_loop]. rewrite run_bind, Hturn. reflexivity.
  - rewrite Hturn. repeat split.
Qed.

End Turns.

(** ** Blanks around an answer *)

Lemma rstrip_unfold c s :
  rstrip (String c s) =
  match rstrip s with
  | EmptyString => if isspace c then "" else String c ""
  | r => String c r
  end.
Proof. reflexivity. Qed.

Lemma rstrip_cons c s : isspace c = false → rstrip (String c s) = String c (rstrip s).
Proof. intros H. rewrite rstrip_unfold, H. destruct (rstrip s); reflexivity. Qed.

Lemma lstrip_cons c s : isspace c = false → lstrip (String c s) = String c s.
Proof. intros H. cbn [lstrip]. rewrite H. reflexivity. Qed.

Lemma lstrip_head s :
  match lstrip s with
  | String c _ => isspace c = false
  | EmptyString => True
  end.
Proof.
  induction s as [|c s IH]; [exact I|]. cbn [lstrip].
  destruct (isspace c) eqn:E; [exact IH|exact E].
Qed.

Lemma rstrip_rstrip s : rstrip (rstrip s) = rstrip s.
Proof.
  induction s as [|c s IH]; [reflexivity|]. rewrite rstrip_unfold.
  destruct (rstrip s) as [|c2 r2] eqn:E.
  - destruct (isspace c) eqn:Ec; [reflexivity|]. rewrite rstrip_unfold, Ec. reflexivity.
  - rewrite rstrip_unfold, IH. reflexivity.
Qed.

(** What [strip] gives has no blank at either end. *)
Lemma strip_ends s : lstrip (strip s) = strip s ∧ rstrip (strip s) = strip s.
Proof.
  unfold strip. split; [|apply rstrip_rstrip].
  pose proof (lstrip_head s) as H. destruct (lstrip s) as [|c r]; [reflexivity|].
  rewrite rstrip_cons by exact H. apply lstrip_cons, H.
Qed.

Lemma strip_strip s : strip (strip s) = strip s.
Proof. unfold strip at 1. destruct (strip_ends s) as [-> ->]. reflexivity. Qed.

Section Blanks.
Context {F : Float} {J : Json}.

(** X9: blanks around an answer do not count.  A turn goes as it would had
    the choice been typed without the blanks around it, and a turn that
    adds an expense goes as it would had the category and the description
    been typed without them: the category and the description it stores
    have no blank at either end. *)
Theorem blanks_around_answers st :
  (∀ line rest,
     stdin st = line :: rest →
     menu_turn (with_stdin st (strip line :: rest)) = menu_turn st) ∧
  (∀ choice text a l3 l4 rest,
     stdin st = choice :: text :: l3 :: l4 :: rest →
     strip choice = "1" → float_of_str text = Some a →
     menu_turn (with_stdin st (choice :: text :: strip l3 :: strip l4 :: rest)) =
       menu_turn st ∧
     ∃ c d,
       expenses (menu_turn st).2 = expenses st ++ [new_record st a c d] ∧
       (lstrip c = c ∧ rstrip c = c) ∧ (lstrip d = d ∧ rstrip d = d)).
Proof.
  split.
  - intros line rest Hin. rewrite !menu_turn_run, Hin.
    cbn [with_stdin stdin stdout filename expenses files clock]. cbv zeta.
    rewrite strip_strip. reflexivity.
  - intros choice text a l3 l4 rest Hin H1 Ha. split.
    + rewrite (menu_turn_accepts st choice text a l3 l4 rest Hin H1 Ha).
      rewrite (menu_turn_accepts (with_stdin st _) choice text a (strip l3) (strip l4) rest
                 eq_refl H1 Ha).
      rewrite !strip_strip. reflexivity.
    + exists (strip l3), (strip l4).
      rewrite (menu_turn_accepts st choice text a l3 l4 rest Hin H1 Ha), add_expense_run.
      split; [reflexivity|]. split; apply strip_ends.
Qed.

End Blanks.

(** ** Dates in the order of their text *)

Lemma compare_digit p q :
  0 ≤ p ≤ 9 → 0 ≤ q ≤ 9 → Ascii.compare (digit p) (digit q) = (p ?= q).
Proof.
  intros Hp Hq.
  assert (p = 0 ∨ p = 1 ∨ p = 2 ∨ p = 3 ∨ p = 4 ∨ p = 5 ∨ p = 6 ∨ p = 7 ∨ p = 8 ∨ p = 9)
    as Hp' by lia.
  assert (q = 0 ∨ q = 1 ∨ q = 2 ∨ q = 3 ∨ q = 4 ∨ q = 5 ∨ q = 6 ∨ q = 7 ∨ q = 8 ∨ q = 9)
    as Hq' by lia.
  clear Hp Hq.
  repeat (destruct Hp' as [->|Hp']); subst;
    repeat (destruct Hq' as [->|Hq']); subst; reflexivity.
Qed.

Lemma compare_cons_digit p q s t :
  0 ≤ p ≤ 9 → 0 ≤ q ≤ 9 →
  String.compare (String (digit p) s) (String (digit q) t) =
  match p ?= q with
  | Eq => String.compare s t
  | c => c
  end.
Proof.
  intros Hp Hq. cbn [String.compare]. rewrite compare_digit by assumption.
  destruct (p ?= q); reflexivity.
Qed.

Lemma compare_zfill4 y y' s t :
  0 ≤ y ≤ 9999 → 0 ≤ y' ≤ 9999 →
  String.compare (zfill4 y +:+ s) (zfill4 y' +:+ t) =
  match y ?= y' with
  | Eq => String.compare s t
  | c => c
  end.
Proof.
  intros Hy Hy'. cbv [zfill4 String.append]. fold String.append.
  rewrite !compare_cons_digit by (Z.div_mod_to_equations; lia).
  destruct (Z.compare_spec (y / 1000) (y' / 1000)); cbv beta iota;
    [|destruct (Z.compare_spec y y'); try reflexivity; exfalso;
      Z.div_mod_to_equations; lia..].
  destruct (Z.compare_spec ((y / 100) `mod` 10) ((y' / 100) `mod` 10)); cbv beta iota;
    [|destruct (Z.compare_spec y y'); try reflexivity; exfalso;
      Z.div_mod_to_equations; lia..].
  destruct (Z.compare_spec ((y / 10) `mod` 10) ((y' / 10) `mod` 10)); cbv beta iota;
    [|destruct (Z.compare_spec y y'); try reflexivity; exfalso;
      Z.div_mod_to_equations; lia..].
  destruct (Z.compare_spec (y `mod` 10) (y' `mod` 10)); cbv beta iota;
    destruct (Z.compare_spec y y'); try reflexivity; exfalso;
      Z.div_mod_to_equations; lia.
Qed.

Lemma compare_zfill2 m m' s t :
  0 ≤ m ≤ 99 → 0 ≤ m' ≤ 99 →
  String.compare (zfill2 m +:+ s) (zfill2 m' +:+ t) =
  match m ?= m' with
  | Eq => String.compare s t
  | c => c
  end.
Proof.
  intros Hm Hm'. cbv [zfill2 String.append]. fold String.append.
  rewrite !compare_cons_digit by (Z.div_mod_to_equations; lia).
  destruct (Z.compare_spec (m / 10) (m' / 10)); cbv beta iota;
    [|destruct (Z.compare_spec m m'); try reflexivity; exfalso;
      Z.div_mod_to_equations; lia..].
  destruct (Z.compare_spec (m `mod` 10) (m' `mod` 10)); cbv beta iota;
    destruct (Z.compare_spec m m'); try reflexivity; exfalso;
      Z.div_mod_to_equations; lia.
Qed.

(** The texts of two dates compare as the dates. *)
Lemma str_lt_strftime a b :
  valid_date a = true → valid_date b = true →
  str_lt (strftime_Ymd a) (strftime_Ymd b) = date_lt a b.
Proof.
  intros Ha Hb. pose proof Ha as Ha'. pose proof Hb as Hb'.
  rewrite valid_date_spec in Ha', Hb'.
  pose proof (days_in_month_le (year a) (month a)).
  pose proof (days_in_month_le (year b) (month b)).
  unfold str_lt, String.ltb, strftime_Ymd.
  rewrite compare_zfill4 by lia.
  change ("-" +:+ ?s) with (String "-" s). cbn [String.compare].
  change (Ascii.compare "-" "-") with Eq. cbv beta iota.
  rewrite compare_zfill2 by lia.
  change ("-" +:+ ?s) with (String "-" s). cbn [String.compare].
  change (Ascii.compare "-" "-") with Eq. cbv beta iota.
  change (zfill2 (day a)) with (zfill2 (day a) +:+ "").
  change (zfill2 (day b)) with (zfill2 (day b) +:+ "").
  rewrite compare_zfill2 by lia. cbn [String.compare].
  unfold date_lt, date_le, Z.leb.
  rewrite (Z.compare_antisym (year a) (year b)), (Z.compare_antisym (month a) (month b)),
    (Z.compare_antisym (day a) (day b)).
  destruct (year a ?= year b); [|reflexivity..].
  destruct (month a ?= month b); [|reflexivity..].
  destruct (day a ?= day b); reflexivity.
Qed.

Lemma StronglySorted_among {A} (P : A → Prop) (R R' : A → A → Prop) l :
  (∀ a b, P a → P b → R a b → R' a b) →
  Forall P l → StronglySorted R l → StronglySorted R' l.
Proof.
  intros HR HP Hl. induction Hl as [|x l Hl IH Hx]; [constructor|].
  apply Forall_cons in HP as [Px HP]. constructor; [apply IH, HP|].
  rewrite Forall_forall in Hx, HP. apply Forall_forall. intros y Hy.
  apply HR; auto.
Qed.

Section ByDay.
Context {F : Float} {J : Json}.

Lemma reachable_dates st :
  reachable st →
  Forall (λ x, ∃ d, valid_date d = true ∧ date x = strftime_Ymd d) (expenses st).
Proof.
  induction 1 as [st Hempty|st a c d _ IH Hclock|st today _ IH].
  - rewrite Hempty. constructor.
  - rewrite add_expense_run. cbn [snd expenses].
    apply Forall_app. split; [exact IH|].
    constructor; [|constructor]. exists (clock st). split; [exact Hclock|reflexivity].
  - exact IH.
Qed.


End ByDay.

(** ** The lines of the categories *)

(** Two lists in strictly growing order that have the same elements are
    one list. *)
Lemma strictly_ascending_unique {A} (key : A → string) (l1 l2 : list A) :
  strictly_ascending key l1 → strictly_ascending key l2 →
  (∀ x, In x l1 ↔ In x l2) → l1 = l2.
Proof.
  intros H1. revert l2. induction H1 as [|x l Hl IH Hx]; intros l2 H2 Hsame.
  { destruct l2 as [|y k]; [reflexivity|]. destruct (proj2 (Hsame y)). left. reflexivity. }
  destruct H2 as [|y k Hk Hy].
  { destruct (proj1 (Hsame x)). left. reflexivity. }
  rewrite List.Forall_forall in Hx, Hy.
  assert (∀ z, In z l → z ≠ x) as Hxl.
  { intros z Hz ->. specialize (Hx x Hz). rewrite str_lt_irrefl in Hx. discriminate. }
  assert (∀ z, In z k → z ≠ y) as Hyk.
  { intros z Hz ->. specialize (Hy y Hz). rewrite str_lt_irrefl in Hy. discriminate. }
  assert (x = y) as <-.
  { destruct (proj1 (Hsame x) (or_introl eq_refl)) as [?|Hxk]; [congruence|].
    destruct (proj2 (Hsame y) (or_introl eq_refl)) as [?|Hyl]; [congruence|].
    pose proof (str_lt_asym _ _ (Hx y Hyl)) as Hc.
    rewrite (Hy x Hxk) in Hc. discriminate. }
  f_equal. apply IH; [exact Hk|]. intros z. split; intros Hz.
  - destruct (proj1 (Hsame z) (or_intror Hz)) as [->|?]; [|assumption].
    destruct (Hxl _ Hz eq_refl).
  - destruct (proj2 (Hsame z) (or_intror Hz)) as [->|?]; [|assumption].
    destruct (Hyk _ Hz eq_refl).
Qed.

Section Categories.
Context {F : Float} {J : Json}.

Lemma category_totals_keys l d c :
  c ∈ (category_totals l d).*1 ↔ c ∈ d.*1 ∨ ∃ x, x ∈ l ∧ category x = c.
Proof.
  revert d. induction l as [|x l IH]; intros d.
  - split; [auto|]. intros [?|(x & Hx & _)]; [assumption|inversion Hx].
  - change (category_totals (x :: l) d)
      with (category_totals l (dict_add d (category x) (amount x))).
    rewrite IH, dict_add_keys. split.
    + intros [[->|?]|(y & Hy & <-)].
      * right. exists x. split; [left|reflexivity].
      * left. assumption.
      * right. exists y. split; [right; assumption|reflexivity].
    + intros [?|(y & Hy & <-)]; [left; right; assumption|].
      apply elem_of_cons in Hy as [->|Hy]; [left; left; reflexivity|].
      right. exists y. split; [assumption|reflexivity].
Qed.


Lemma of_category_In c l x : In x (of_category c l) ↔ In x l ∧ category x = c.
Proof.
  unfold of_category. rewrite filter_In.
  destruct (String.eqb_spec (category x) c); intuition congruence.
Qed.

Lemma of_category_filter (f : expense → bool) c l :
  of_category c (List.filter f l) = List.filter f (of_category c l).
Proof.
  unfold of_category. induction l as [|x l IH]; [reflexivity|]. cbn [List.filter].
  destruct (f x) eqn:Ef, (String.eqb (category x) c) eqn:Ec; cbn [List.filter];
    rewrite ?Ef, ?Ec, IH; reflexivity.
Qed.

Lemma forallb_by_category (f : expense → bool) l l' :
  (∀ c, of_category c l = of_category c l') → forallb f l = forallb f l'.
Proof.
  intros H. apply eq_true_iff_eq. rewrite !forallb_forall.
  split; intros Hall x Hx; apply Hall.
  - apply (of_category_In (category x) l). rewrite H.
    apply of_category_In. split; [exact Hx|reflexivity].
  - apply (of_category_In (category x) l'). rewrite <- H.
    apply of_category_In. split; [exact Hx|reflexivity].
Qed.

(** The lines of a week depend on its records by category only. *)
Lemma summary_by_category w w' :
  (∀ c, of_category c w = of_category c w') → summary w = summary w'.
Proof.
  intros H.
  assert (sorted fst false (category_totals w []) =
          sorted fst false (category_totals w' [])) as Hitems.
  { apply (strictly_ascending_unique fst); [apply items_strictly_ascending..|].
    intros [c v]. rewrite <- !list_elem_of_In.
    rewrite (sorted_perm fst false (category_totals w [])).
    rewrite (sorted_perm fst false (category_totals w' [])).
    rewrite !category_totals_items, H. reflexivity. }
  unfold summary. rewrite Hitems.
  destruct w as [|x w], w' as [|x' w']; try reflexivity.
  - specialize (H (category x')). unfold of_category in H. cbn [List.filter] in H.
    rewrite String.eqb_refl in H. discriminate.
  - specialize (H (category x)). unfold of_category in H. cbn [List.filter] in H.
    rewrite String.eqb_refl in H. discriminate.
Qed.

(** X12: the weekly summary depends on the order of the records only
    within a category.  On two stores that hold, for every category, the
    same records of the category in the same order, however the records of
    different categories are mixed, on the same day, [weekly_summary] ends
    the same way and writes the same lines, with the rounding of [float] as
    with any other arithmetic. *)
Theorem summary_by_category_order st st' :
  (∀ c, of_category c (expenses st) = of_category c (expenses st')) →
  clock st = clock st' →
  (weekly_summary st).1 = (weekly_summary st').1 ∧
  ∃ lines,
    stdout (weekly_summary st).2 = stdout st ++ lines ∧
    stdout (weekly_summary st').2 = stdout st' ++ lines.
Proof.
  intros H Hc. rewrite !weekly_summary_run, <- Hc.
  destruct (date_add (clock st) _) as [s|e0].
  2:{ split; [reflexivity|]. exists []. rewrite !app_nil_r. split; reflexivity. }
  destruct (date_add s 6) as [e|e0].
  2:{ split; [reflexivity|]. exists []. rewrite !app_nil_r. split; reflexivity. }
  rewrite <- (forallb_by_category parses _ _ H).
  rewrite <- (summary_by_category (List.filter (in_week s e) (expenses st))
                (List.filter (in_week s e) (expenses st'))).
  2:{ intros c. rewrite !of_category_filter, H. reflexivity. }
  destruct (forallb parses (expenses st)); (split; [reflexivity|]);
    eexists; split; reflexivity.
Qed.

End Categories.

(** ** The width of the lines *)

Lemma length_append s t :
  String.length (s +:+ t) = (String.length s + String.length t)%nat.
Proof.
  induction s as [|c s IH]; [reflexivity|].
  change (String.length (String c s +:+ t)) with (S (String.length (s +:+ t))).
  rewrite IH. reflexivity.
Qed.

Lemma length_str_mul c n : String.length (str_mul (String c "") n) = n.
Proof.
  induction n as [|n IH]; [reflexivity|].
  change (String.length (str_mul (String c "") (S n)))
    with (S (String.length (str_mul (String c "") n))).
  rewrite IH. reflexivity.
Qed.

Lemma length_ljust n s : String.length (ljust n s) = Nat.max n (String.length s).
Proof. unfold ljust. rewrite length_append, length_str_mul. lia. Qed.

Lemma length_rjust n s : String.length (rjust n s) = Nat.max n (String.length s).
Proof. unfold rjust. rewrite length_append, length_str_mul. lia. Qed.

Section Widths.
Context {F : Float}.

(** X13: a row of the listing is as wide as its cells: the date, the
    category and the amount are filled up to 12, 15 and 8 characters and
    never cut, so that a longer one moves what follows to the right; the
    description is cut and filled to 30 characters whatever it is.  A row
    whose cells fit is 69 characters wide, one less than the heading, whose
    column for the amount has 10 characters where a row has the dollar sign
    and 8.  A line of the weekly summary is wide in the same way, 30
    characters when its cells fit. *)
Theorem width_of_lines (e : expense) (item : string * num) :
  (String.length (expense_line e) =
     Nat.max 12 (String.length (date e)) + 1 +
     Nat.max 15 (String.length (category e)) + 2 +
     Nat.max 8 (String.length (format_2f (amount e))) + 1 + 30)%nat ∧
  ((String.length (date e) ≤ 12)%nat → (String.length (category e) ≤ 15)%nat →
   (String.length (format_2f (amount e)) ≤ 8)%nat →
   String.length (expense_line e) = 69%nat ∧
   String.length (ljust 12 "Date" +:+ " " +:+ ljust 15 "Category" +:+ " " +:+
                  ljust 10 "Amount" +:+ " " +:+ ljust 30 "Description") = 70%nat) ∧
  (String.length (category_line item) =
     Nat.max 20 (String.length (fst item)) + 2 +
     Nat.max 8 (String.length (format_2f (snd item))))%nat ∧
  ((String.length (fst item) ≤ 20)%nat → (String.length (format_2f (snd item)) ≤ 8)%nat →
   String.length (category_line item) = 30%nat).
Proof.
  assert (String.length (expense_line e) =
     Nat.max 12 (String.length (date e)) + 1 +
     Nat.max 15 (String.length (category e)) + 2 +
     Nat.max 8 (String.length (format_2f (amount e))) + 1 + 30)%nat as Hrow.
  { unfold expense_line. cbv zeta.
    rewrite !length_append, !length_ljust, length_rjust, length_str_take.
    change (String.length " ") with 1%nat. change (String.length " $") with 2%nat. lia. }
  assert (String.length (category_line item) =
     Nat.max 20 (String.length (fst item)) + 2 +
     Nat.max 8 (String.length (format_2f (snd item))))%nat as Hline.
  { unfold category_line. rewrite !length_append, length_ljust, length_rjust.
    change (String.length " $") with 2%nat. lia. }
  split; [exact Hrow|]. split; [|split; [exact Hline|]].
  - intros H1 H2 H3. split; [rewrite Hrow; lia|reflexivity].
  - intros H1 H2. rewrite Hline. lia.
Qed.

End Widths.

(** * The properties on the instances *)

Lemma by_document_round_trip (F : Float) : JsonRoundTrip (by_document F).
Proof. intros d. reflexivity. Qed.

Lemma integral_exact : ExactArithmetic integral.
Proof. split; intros; simpl; lia. Qed.

(** The week of Wednesday 2024-05-15 runs from Monday 13 to Sunday 19. *)
Example week_of_a_wednesday :
  get_week_range fresh_store = (Ok (mkdate 2024 5 13, mkdate 2024 5 19), fresh_store).
Proof. reflexivity. Qed.

(** The scenario of the specification: 12.50 and 7.00 of Food on one day
    show as 19.50 of Food and 19.50 in total. *)
Example food_scenario :
  let lines := ["1"; "12.50"; "Food"; ""; "1"; "7.00"; "Food"; ""; "2"; "4"] in
  let run := main (world (by_document binary64) ∅ a_wednesday lines) in
  run.1 = Ok (Some tt) ∧
  In "Food                 $   19.50" (stdout run.2) ∧
  In "TOTAL                $   19.50" (stdout run.2).
Proof. vm_compute. intuition. Qed.

(** An empty store: no expenses this week, none recorded. *)
Example empty_scenario :
  stdout (weekly_summary fresh_store).2 =
    heading (mkdate 2024 5 13) (mkdate 2024 5 19) ++ ["No expenses recorded this week."] ∧
  stdout (list_all_expenses fresh_store).2 = ["No expenses recorded yet."].
Proof. split; reflexivity. Qed.

(** A listing: the later day first, the two records of May 13th in the
    order of the store, no description shown as an empty one, a long one cut
    after 28 characters. *)
Example listing_scenario :
  stdout (list_all_expenses listed_store).2 =
    [newline +:+
     "Date         Category        Amount     Description                   ";
     "----------------------------------------------------------------------";
     "2024-05-15   Food            $    7.00                               ";
     "2024-05-13   Food            $   12.50 lunch                         ";
     "2024-05-13   Transport       $   30.00 a monthly pass for the train  ";
     ""].
Proof. reflexivity. Qed.

(** C1, refuted as stated: the three records of [uneven_store] are of the
    week, and their amounts, 1, 1 and 10^16, add up to 10^16 + 2, in the
    order of the store without any rounding; the total [weekly_summary]
    prints is 10^16, since it adds 1 to 10^16 twice, and each time the sum
    rounds to 10^16. *)
Lemma rounded_total_is_not_the_sum :
  (weekly_summary uneven_store).1 = Ok tt ∧
  List.filter (in_week (mkdate 2024 5 13) (mkdate 2024 5 19)) (expenses uneven_store) =
    expenses uneven_store ∧
  amount <$> expenses uneven_store =
    [of_uint63 1%uint63; of_uint63 1%uint63; of_uint63 10000000000000000%uint63] ∧
  sum_amounts (expenses uneven_store) =
    of_uint63 (1 + 1 + 10000000000000000)%uint63 ∧
  binary64_format_2f (sum_amounts (expenses uneven_store)) = "10000000000000002.00" ∧
  In "TOTAL                $10000000000000000.00" (stdout (weekly_summary uneven_store).2) ∧
  ¬ In "TOTAL                $10000000000000002.00" (stdout (weekly_summary uneven_store).2).
Proof.
  split; [vm_compute; reflexivity|].
  split; [reflexivity|].
  split; [reflexivity|].
  split; [vm_compute; reflexivity|].
  split; [vm_compute; reflexivity|].
  split; vm_compute; intuition discriminate.
Qed.

(** C1 as the program has it, on the lunches: the record of May 1st is
    outside the week, and the total shown is 12 + 30 + 7; and on the three
    records of [listed_store], whose amounts are of binary64. *)
Lemma weekly_summary_total_lunches :
  In "TOTAL                $   49.00" (stdout (weekly_summary lunch_store).2) ∧
  ∃ (items : list (string * PrimFloat.float)) (total : PrimFloat.float),
    strictly_ascending fst items ∧
    total = fold_left (λ t i, PrimFloat.add t (snd i)) items 0%float ∧
    In ("TOTAL                $" +:+ rjust 8 (binary64_format_2f total))
       (stdout (weekly_summary listed_store).2).
Proof.
  split.
  - pose proof (weekly_summary_total lunch_store eq_refl eq_refl) as H. cbv zeta in H.
    destruct H as (s & e & Hs & He & _ & items & total & Hout & _ & _ & _ & Hexact).
    assert (s = mkdate 2024 5 13) as -> by (vm_compute in Hs; congruence).
    assert (e = mkdate 2024 5 19) as -> by (vm_compute in He; congruence).
    rewrite Hout. apply in_or_app. right. apply in_or_app. right.
    change (List.filter (in_week (mkdate 2024 5 13) (mkdate 2024 5 19)) (expenses lunch_store))
      with [mkexpense (F:=integral) "2024-05-13" 12 "Food" (Some "lunch");
            mkexpense (F:=integral) "2024-05-15" 30 "Transport" (Some "train");
            mkexpense (F:=integral) "2024-05-19" 7 "Food" (Some "")].
    apply in_or_app. right. right. left.
    rewrite (Hexact integral_exact). reflexivity.
  - pose proof (weekly_summary_total listed_store eq_refl eq_refl) as H. cbv zeta in H.
    destruct H as (s & e & Hs & He & _ & items & total & Hout & Hitems & _ & Htotal & _).
    assert (s = mkdate 2024 5 13) as -> by (vm_compute in Hs; congruence).
    assert (e = mkdate 2024 5 19) as -> by (vm_compute in He; congruence).
    exists items, total. split; [exact Hitems|]. split; [exact Htotal|].
    rewrite Hout. apply in_or_app. right. apply in_or_app. right.
    change (List.filter (in_week (mkdate 2024 5 13) (mkdate 2024 5 19)) (expenses listed_store))
      with three_records.
    apply in_or_app. right. right. left. reflexivity.
Defined.

(** C2 on a fresh store: the record is loaded by a tracker that holds
    nothing in memory. *)
Lemma add_then_load_lunch :
  ∃ st',
    add_expense (F:=binary64) 12.5%float "Food" "lunch" fresh_store = (Ok tt, st') ∧
    load_expenses (mkState "expenses.json" [] (files st') a_wednesday [] []) =
      (Ok [mkexpense (F:=binary64) "2024-05-15" 12.5%float "Food" (Some "lunch")],
       mkState "expenses.json" [] (files st') a_wednesday [] []).
Proof.
  destruct (add_then_load (R:=by_document_round_trip binary64) fresh_store
              12.5%float "Food" "lunch" eq_refl eq_refl)
    as (st' & e & Hadd & Hload & _ & Ha & Hc & Hd & Hdate & _).
  exists st'. split; [exact Hadd|].
  rewrite (Hload (mkState "expenses.json" [] (files st') a_wednesday [] []) eq_refl eq_refl).
  destruct e as [date0 amount0 category0 description0]. simpl in *. subst.
  reflexivity.
Defined.

(** C3 on a store of two records, loaded by a tracker that holds nothing
    in memory. *)
Lemma save_then_load_two_lunches :
  ∃ st',
    save_expenses unsaved_store = (Ok tt, st') ∧
    load_expenses (mkState "expenses.json" [] (files st') a_wednesday [] []) =
      (Ok two_lunches, mkState "expenses.json" [] (files st') a_wednesday [] []).
Proof.
  destruct (save_then_load (R:=by_document_round_trip binary64) unsaved_store)
    as (st' & Hsave & _ & _ & Hload & _).
  exists st'. split; [exact Hsave|].
  apply (Hload (mkState "expenses.json" [] (files st') a_wednesday [] [])); reflexivity.
Defined.

(** C7 on a store with no file, on one with a file and on one whose file is
    no JSON. *)
Lemma load_expenses_outcome_each :
  load_expenses fresh_store = (Ok [], fresh_store) ∧
  load_expenses saved_store = (Ok two_lunches, saved_store) ∧
  load_expenses broken_store = (Raise JSONDecodeError, broken_store) ∧
  (main broken_store).1 = Raise JSONDecodeError.
Proof.
  split; [|split; [|split]].
  - apply (load_expenses_outcome fresh_store). reflexivity.
  - apply (proj1 (proj2 (load_expenses_outcome saved_store)) (Some two_lunches));
      reflexivity.
  - apply (proj1 (proj2 (proj2 (load_expenses_outcome broken_store))) None);
      reflexivity.
  - apply (proj2 (proj2 (proj2 (proj2 (load_expenses_outcome broken_store)))) None);
      reflexivity.
Defined.

(** C8 on a run in which [abc] is typed for the amount. *)
Lemma non_numeric_amount_abc :
  ∃ st',
    menu_turn typing_store = (Ok Continue, st') ∧
    expenses st' = [] ∧ files st' = ∅ ∧ stdin st' = ["4"] ∧
    last (stdout st') = Some "❌ Invalid amount. Please enter a number.".
Proof.
  destruct (non_numeric_amount typing_store "1" "abc" ["4"] eq_refl eq_refl eq_refl)
    as (st' & Hturn & He & Hf & Hin & Hout & _ & _).
  exists st'. repeat split; try assumption.
  rewrite Hout. reflexivity.
Defined.

(** C5, refuted as stated: an infinite amount is no finite number, and
    [add_expense] stores it and returns. *)
Lemma infinite_amount_is_stored :
  PrimFloat.is_finite infinity = false ∧
  (add_expense (F:=binary64) infinity "Food" "" fresh_store).1 = Ok tt ∧
  expenses (add_expense (F:=binary64) infinity "Food" "" fresh_store).2 =
    [mkexpense (F:=binary64) "2024-05-15" infinity "Food" (Some "")] ∧
  expenses (add_expense (F:=binary64) infinity "Food" "" fresh_store).2 ≠
    expenses fresh_store.
Proof. repeat split. discriminate. Qed.

(** C5 as the program has it, on a run in which [inf] is typed for the
    amount. *)
Lemma add_expense_accepts_inf :
  (menu_turn inf_store).1 = Ok Continue ∧
  expenses (menu_turn inf_store).2 =
    [mkexpense (F:=binary64) "2024-05-15" infinity "Food" (Some "")].
Proof.
  exact (proj2 (proj2 (add_expense_accepts inf_store)) "1" "inf" infinity "Food" "" ["4"]
           eq_refl eq_refl eq_refl).
Defined.

(** C6, refuted as stated: a store reached by one call of [add_expense]
    holds a negative amount. *)
Lemma negative_amount_is_stored :
  reachable (add_expense (F:=binary64) (-5)%float "Fun" "" fresh_store).2 ∧
  ∃ x : @expense binary64,
    In x (expenses (add_expense (F:=binary64) (-5)%float "Fun" "" fresh_store).2) ∧
    PrimFloat.ltb (amount x) 0 = true.
Proof.
  split.
  - apply reachable_add; [apply reachable_empty|]; reflexivity.
  - exists (mkexpense (F:=binary64) "2024-05-15" (-5)%float "Fun" (Some "")).
    split; [left|]; reflexivity.
Qed.

(** C6 as the program has it, on that store. *)
Lemma stored_dates_parse_negative :
  Forall (λ x, ∃ d, strptime_Ymd (date x) = Ok d ∧ valid_date d = true)
    (expenses (add_expense (F:=binary64) (-5)%float "Fun" "" fresh_store).2).
Proof.
  apply stored_dates_parse.
  apply reachable_add; [apply reachable_empty|]; reflexivity.
Defined.

(** X1 on a Wednesday, whose week runs from Monday 13 to Sunday 19, and on
    9999-12-30, whose week has no Sunday. *)
Lemma get_week_range_outcome_each :
  (∃ s e,
     get_week_range fresh_store = (Ok (s, e), fresh_store) ∧
     valid_date s = true ∧ valid_date e = true ∧
     weekday s = 0 ∧ weekday e = 6 ∧ toordinal e = toordinal s + 6 ∧
     date_le s (clock fresh_store) = true ∧ date_le (clock fresh_store) e = true) ∧
  get_week_range late_store = (Raise OverflowError, late_store).
Proof.
  split.
  - exact (get_week_range_outcome fresh_store eq_refl).
  - exact (get_week_range_outcome late_store eq_refl).
Defined.



(** X4 on a run that adds an expense and exits. *)
Lemma exit_is_by_option_4_inf :
  ∃ before line,
    stdin inf_store = before ++ line :: stdin (main inf_store).2 ∧ strip line = "4" ∧
    last (stdout (main inf_store).2) = Some "Goodbye! 👋".
Proof.
  assert ((main inf_store).1 = Ok (Some tt)) as H1 by (vm_compute; reflexivity).
  apply (proj2 (exit_is_by_option_4 inf_store (main inf_store).2)).
  rewrite <- H1. destruct (main inf_store); reflexivity.
Defined.

(** X5 on a run that ends after the amount. *)
Lemma end_of_input_cut :
  (menu_turn cut_store).1 = Raise EOFError ∧
  same_store cut_store (menu_turn cut_store).2 ∧
  stdin (menu_turn cut_store).2 = [].
Proof.
  apply (proj1 (proj2 (end_of_input cut_store)) "1" ["12.5"]);
    [reflexivity|reflexivity|simpl; lia|].
  intros text [= <-]. vm_compute. discriminate.
Defined.

(** X6: a run that adds an expense leaves another file alone. *)
Lemma records_are_only_added_inf :
  files (main inf_store).2 !! "notes.txt" = files inf_store !! "notes.txt".
Proof.
  apply (proj2 (proj2 (records_are_only_added inf_store))). discriminate.
Defined.

(** X7 on that run. *)
Lemma file_follows_memory_inf : in_sync (main inf_store).2.
Proof.
  apply (file_follows_memory (R:=by_document_round_trip binary64) inf_store).
  reflexivity.
Defined.

(** X8 on the file edited by hand. *)
Lemma unreadable_date_ends_run_misdated :
  (menu_turn misdated_store).1 = Raise ValueError ∧
  (menu_loop 3 misdated_store).1 = Raise ValueError.
Proof.
  destruct (unreadable_date_ends_run misdated_store
              (mkexpense (F:=binary64) "13/05/2024" 7%float "Food" None)
              (or_intror (or_introl eq_refl)) eq_refl eq_refl eq_refl)
    as (_ & Hturn).
  destruct (Hturn "2" ["4"] eq_refl eq_refl) as (H1 & H2 & _).
  split; [exact H1|]. exact (H2 2%nat).
Defined.

(** X9 on answers typed with blanks. *)
Lemma blanks_around_answers_typed :
  menu_turn (with_stdin blank_store ["1"; "12.5"; "  Food "; " lunch  "; " 4"]) =
    menu_turn blank_store ∧
  menu_turn (with_stdin blank_store [" 1 "; "12.5"; "Food"; "lunch"; " 4"]) =
    menu_turn blank_store.
Proof.
  split.
  - exact (proj1 (blanks_around_answers blank_store) " 1 " _ eq_refl).
  - exact (proj1 (proj2 (blanks_around_answers blank_store) " 1 " "12.5" 12.5%float
                    "  Food " " lunch  " [" 4"] eq_refl eq_refl eq_refl)).
Defined.


(** X12 on the three records and on the three records mixed another
    way. *)
Lemma summary_by_category_order_mixed :
  ∃ lines,
    stdout (weekly_summary listed_store).2 = stdout listed_store ++ lines ∧
    stdout (weekly_summary mixed_store).2 = stdout mixed_store ++ lines.
Proof.
  apply (summary_by_category_order listed_store mixed_store); [|reflexivity].
  intros c. unfold of_category, listed_store, mixed_store, three_records.
  cbn [expenses List.filter category].
  destruct (String.eqb_spec "Food" c) as [<-|_]; [reflexivity|].
  destruct (String.eqb "Transport" c); reflexivity.
Defined.

(** X13 on a record of the listing. *)
Lemma width_of_lines_lunch :
  String.length
    (expense_line (mkexpense (F:=binary64) "2024-05-13" 12.5%float "Food" (Some "lunch"))) =
    69%nat.
Proof.
  apply (proj1 (proj2 (width_of_lines
           (mkexpense (F:=binary64) "2024-05-13" 12.5%float "Food" (Some "lunch"))
           ("Food", 12.5%float))));
    vm_compute; lia.
Defined.
